(** * CloudWatch-to-Logz.io shipper: the record pipeline of
      [python3/cloudwatch/src/lambda_function.py]

    A shallow embedding of the Lambda handler and of the functions it
    calls, with the properties of the natural-language specification stated
    and settled against it.

    Conventions of the embedding.
    - A Python [str] is a Rocq [string] (its UTF-8 bytes); [bytes] are
      [string] too.  [s.lower()] is a parameter ([unicode_lower]) where
      the source keeps the lower-cased text; where the source only compares
      it with ASCII literals, the ASCII fold [str_lower] decides the same.
    - A Python [dict] is an insertion-ordered association list with unique
      keys: assignment to a present key keeps its position, assignment to a
      new key appends.
    - A function that mutates its [log] argument takes the dict and returns
      the new one.  A raised exception is [Err] with its class.
    - [os.environ] is an explicit argument; the Shipper is the list of calls
      made on it.
    - Library calls ([json.loads], [json.dumps], [base64.b64decode], gzip,
      [repr] of floats and containers) are parameters of the development. *)

From Stdlib Require Import String Ascii List ZArith Bool Lia PrimFloat.
From Stdlib Require DecimalString.
Import ListNotations.
Open Scope string_scope.

(** ** Exceptions and the error monad *)

Inductive exn : Type :=
| KeyError | IndexError | TypeError | AttributeError
| ValueError            (* ValueError proper *)
| BinasciiError         (* binascii.Error, a ValueError *)
| JSONDecodeError       (* json.JSONDecodeError, a ValueError *)
| OSError               (* includes gzip.BadGzipFile *)
| EOFError
| ZlibError.            (* zlib.error *)

(** [isinstance(e, ValueError)] and [isinstance(e, KeyError)]. *)
Definition is_ValueError (e : exn) : bool :=
  match e with
  | ValueError | BinasciiError | JSONDecodeError => true
  | _ => false
  end.

Definition is_KeyError (e : exn) : bool :=
  match e with KeyError => true | _ => false end.

Inductive result (A : Type) : Type :=
| Ok (a : A)
| Err (e : exn).
Arguments Ok {A} a.
Arguments Err {A} e.

Definition bind {A B} (m : result A) (k : A -> result B) : result B :=
  match m with
  | Ok a => k a
  | Err e => Err e
  end.

Notation "x <- m ;; k" := (bind m (fun x => k))
  (at level 61, m at next level, right associativity).

(** ** JSON values, as [json.loads] builds them *)

#[local] Set Warnings "-register-all".

Inductive value : Type :=
| JNull
| JBool (b : bool)
| JInt (z : Z)
| JFloat (f : float)
| JStr (s : string)
| JArr (l : list value)
| JObj (d : list (string * value)).

Definition dict : Type := list (string * value).

(** ** Strings *)

Definition TAB : ascii := ascii_of_nat 9.

(** One byte of the ASCII fold; a byte of a multi-byte UTF-8 character is
    kept as it is (see [str_lower] for where the fold is used). *)
Definition lower_ascii (c : ascii) : ascii :=
  let n := nat_of_ascii c in
  if (65 <=? n)%nat && (n <=? 90)%nat then ascii_of_nat (n + 32) else c.

(** The ASCII fold: A-Z become a-z and every other byte is kept.  It
    stands for [s.lower()] only where the source compares the result with
    ASCII literals ("json", the severity tables).  Python's lower-casing
    turns no character outside ASCII into ASCII text, except the Kelvin
    sign into "k" and the dotted capital I into "i" followed by a combining
    mark; none of the literals has a "k" and none of them a byte outside
    ASCII, so the comparison on the folded UTF-8 bytes decides as the
    source does.  Text that the source stores after lower-casing goes
    through the parameter [unicode_lower] of the pipeline. *)
Fixpoint str_lower (s : string) : string :=
  match s with
  | EmptyString => EmptyString
  | String c r => String (lower_ascii c) (str_lower r)
  end.

(** [s.startswith(p)] *)
Definition startswith (s p : string) : bool := prefix p s.

(** [needle in hay] on two strings *)
Fixpoint str_contains (needle hay : string) : bool :=
  prefix needle hay ||
  match hay with
  | EmptyString => false
  | String _ r => str_contains needle r
  end.

(** [s.split(c)] for a one-character separator: never empty. *)
Fixpoint split_on (c : ascii) (s : string) : list string :=
  match s with
  | EmptyString => [EmptyString]
  | String a r =>
      if Ascii.eqb a c then EmptyString :: split_on c r
      else match split_on c r with
           | h :: t => String a h :: t
           | [] => [String a EmptyString]
           end
  end.

(** [x in l] for a list of strings *)
Definition str_in (x : string) (l : list string) : bool :=
  existsb (String.eqb x) l.
Arguments str_in : simpl never.

(** [str(z)] for an [int] *)
Definition str_of_int (z : Z) : string :=
  DecimalString.NilZero.string_of_int (Z.to_int z).

(** ** Ordered dictionaries *)

Fixpoint dict_get {V} (k : string) (d : list (string * V)) : option V :=
  match d with
  | [] => None
  | (k', v) :: r => if String.eqb k k' then Some v else dict_get k r
  end.

(** [k in d] *)
Definition dict_mem {V} (k : string) (d : list (string * V)) : bool :=
  match dict_get k d with Some _ => true | None => false end.

(** [d[k] = v] *)
Fixpoint dict_set {V} (k : string) (v : V) (d : list (string * V))
  : list (string * V) :=
  match d with
  | [] => [(k, v)]
  | (k', v') :: r =>
      if String.eqb k k' then (k, v) :: r else (k', v') :: dict_set k v r
  end.

(** [del d[k]] for a present key *)
Fixpoint dict_del {V} (k : string) (d : list (string * V))
  : list (string * V) :=
  match d with
  | [] => []
  | (k', v') :: r =>
      if String.eqb k k' then dict_del k r else (k', v') :: dict_del k r
  end.

(** [d.update(other)], also the loop [for k, v in other.items(): d[k] = v] *)
Definition dict_update {V} (d other : list (string * V)) : list (string * V) :=
  fold_left (fun acc kv => dict_set (fst kv) (snd kv) acc) other d.

(** [d[k]], raising [KeyError] *)
Definition dict_getitem {V} (d : list (string * V)) (k : string) : result V :=
  match dict_get k d with
  | Some v => Ok v
  | None => Err KeyError
  end.

Definition keys {V} (d : list (string * V)) : list string := map fst d.

(** ** Python operations on JSON values *)

(** [v[k]] with a string subscript *)
Definition py_getitem (v : value) (k : string) : result value :=
  match v with
  | JObj d => dict_getitem d k
  | _ => Err TypeError
  end.

(** [needle in v] with a string on the left *)
Definition py_contains (needle : string) (v : value) : result bool :=
  match v with
  | JStr s => Ok (str_contains needle s)
  | JArr l =>
      Ok (existsb (fun x => match x with
                            | JStr s => String.eqb s needle
                            | _ => false
                            end) l)
  | JObj d => Ok (dict_mem needle d)
  | _ => Err TypeError
  end.

(** [v.lower()] for the tests [... in LOG_LEVELS] and
    [... in LOG_LEVELS_IGNORE]: the result is only compared with ASCII
    literals, see [str_lower]. *)
Definition py_lower (v : value) : result string :=
  match v with
  | JStr s => Ok (str_lower s)
  | _ => Err AttributeError
  end.

(** [v.items()] *)
Definition py_items (v : value) : result dict :=
  match v with
  | JObj d => Ok d
  | _ => Err AttributeError
  end.

(** [for x in v] with [len(v)] taken first: the elements visited *)
Definition py_iter (v : value) : result (list value) :=
  match v with
  | JArr l => Ok l
  | JObj d => Ok (map (fun kv => JStr (fst kv)) d)
  | JStr s => Ok (map (fun c => JStr (String c EmptyString)) (list_ascii_of_string s))
  | _ => Err TypeError
  end.

(** ** Module constants *)

Definition LOG_LEVELS : list string :=
  ["alert"; "trace"; "debug"; "notice"; "info"; "warn";
   "warning"; "error"; "err"; "critical"; "crit"; "fatal";
   "severe"; "emerg"; "emergency"].

Definition LOG_LEVELS_IGNORE : list string := ["info"].

Definition PYTHON_EVENT_SIZE : nat := 3.
Definition LAMBDA_JS_EVENT_SIZE : nat := 4.
Definition NODEJS_EVENT_SIZE : nat := 5.
Definition LAMBDA_LOG_GROUP : string := "/aws/lambda/".

(** [os.environ] *)
Definition environ : Type := list (string * string).

(** The invocation context: an attribute that the object does not have is
    [None]; reading it raises [AttributeError]. *)
Record LambdaContext : Type := {
  function_version : option value;
  invoked_function_arn : option value
}.

Definition getattr (a : option value) : result value :=
  match a with
  | Some v => Ok v
  | None => Err AttributeError
  end.

(** Calls received by the Shipper. *)
Inductive call : Type :=
| Add (record : dict)
| Flush.

(** * Sample inputs *)

(** The five-part line of the specification's example. *)
Definition nodejs_line : string :=
  "2024-01-01T00:00:00Z" ++ String TAB "req-123" ++ String TAB "INFO"
    ++ String TAB "extra" ++ String TAB "actual message".

(** [str.lower()] on text made of ASCII and of the accented capitals
    of Latin-1 (in UTF-8: the byte 195 followed by 128 to 158, the
    multiplication sign 151 apart), which is all the samples hold. *)
Fixpoint latin1_lower (s : string) : string :=
  match s with
  | EmptyString => EmptyString
  | String c r =>
      match r with
      | String c' r' =>
          let n := nat_of_ascii c' in
          if (nat_of_ascii c =? 195)%nat && (128 <=? n)%nat && (n <=? 158)%nat
             && negb (n =? 151)%nat
          then String c (String (ascii_of_nat (n + 32)) (latin1_lower r'))
          else String (lower_ascii c) (latin1_lower r)
      | EmptyString => String (lower_ascii c) EmptyString
      end
  end.

Definition sample_lower : string -> string := latin1_lower.

(** A four-part line whose severity starts with a capital E acute. *)
Definition accented_line : string :=
  "2024-01-01T00:00:04Z" ++ String TAB "req-123"
    ++ String TAB (String (ascii_of_nat 195) (String (ascii_of_nat 137) "RROR"))
    ++ String TAB "disque plein".

Definition accented_entry : dict :=
  [("id", JStr "4"); ("timestamp", JInt 1704067204000);
   ("message", JStr accented_line)].

(** A four-part line at error severity. *)
Definition lambda_js_line : string :=
  "2024-01-01T00:00:01Z" ++ String TAB "req-123" ++ String TAB "ERROR"
    ++ String TAB "disk full".

Definition DQ : ascii := ascii_of_nat 34.
Definition quoted (s : string) : string := String DQ (s ++ String DQ EmptyString).

(** [json.dumps] on values without floats and with strings that need no
    escape, which is all the samples hold. *)
Fixpoint dumps_plain (v : value) : string :=
  match v with
  | JNull => "null"
  | JBool true => "true"
  | JBool false => "false"
  | JInt z => str_of_int z
  | JFloat _ => "NaN"
  | JStr s => quoted s
  | JArr l =>
      "[" ++ (fix elems (l : list value) : string :=
                match l with
                | [] => EmptyString
                | [x] => dumps_plain x
                | x :: r => dumps_plain x ++ ", " ++ elems r
                end) l ++ "]"
  | JObj d =>
      "{" ++ (fix members (d : list (string * value)) : string :=
                match d with
                | [] => EmptyString
                | [(k, x)] => quoted k ++ ": " ++ dumps_plain x
                | (k, x) :: r => quoted k ++ ": " ++ dumps_plain x ++ ", " ++ members r
                end) d ++ "}"
  end.

(** A structured message without a level, and one with a recognized level. *)
Definition code_object : value := JObj [("code", JInt 500)].
Definition level_object : value := JObj [("level", JStr "ERROR")].
Definition code_message : string := dumps_plain code_object.
Definition level_message : string := dumps_plain level_object.

(** A three-part line. *)
Definition python_line : string :=
  "2024-01-01T00:00:02Z" ++ String TAB "req-456" ++ String TAB "plain text".

Definition python_entry : dict :=
  [("id", JStr "0"); ("timestamp", JInt 1704067199000);
   ("message", JStr python_line)].

(** A decoded batch under a managed-function log group: a housekeeping line,
    an error line and an informational line. *)
Definition start_entry : dict :=
  [("id", JStr "1"); ("timestamp", JInt 1704067200000);
   ("message", JStr "START RequestId: req-123 Version: $LATEST")].

Definition error_entry : dict :=
  [("id", JStr "2"); ("timestamp", JInt 1704067201000);
   ("message", JStr lambda_js_line)].

Definition info_entry : dict :=
  [("id", JStr "3"); ("timestamp", JInt 1704067202000);
   ("message", JStr nodejs_line)].

Definition sample_events : list value :=
  [JObj start_entry; JObj error_entry; JObj info_entry].

Definition sample_payload : value :=
  JObj [("messageType", JStr "DATA_MESSAGE");
        ("owner", JStr "123456789012");
        ("logGroup", JStr "/aws/lambda/shipper-test");
        ("logStream", JStr "2024/01/01/[$LATEST]abcdef");
        ("subscriptionFilters", JArr [JStr "to-logzio"]);
        ("logEvents", JArr sample_events)].

Definition sample_payload_text : string := dumps_plain sample_payload.

(** The library functions on the sample texts: [json.loads] reads back the
    three documents above and rejects anything else in the samples. *)
Definition sample_json_loads (s : string) : option value :=
  if String.eqb s code_message then Some code_object
  else if String.eqb s level_message then Some level_object
  else if String.eqb s sample_payload_text then Some sample_payload
  else None.

(** The sample envelope's [data] stands for the base64 of the gzip of
    [sample_payload_text]; "abc" has a length that no base64 text has. *)
Definition sample_data : string := "H4sIAAAAAAAAA-sample".
Definition sample_gzip : string := "gzip:sample".

Definition sample_b64decode (s : string) : option string :=
  if String.eqb s sample_data then Some sample_gzip
  else if String.eqb s "abc" then None
  else Some EmptyString.

Definition sample_gunzip (b : string) : result string :=
  if String.eqb b sample_gzip then Ok sample_payload_text else Err OSError.

(** No sample takes [str] of a float or of a container. *)
Definition sample_repr (_ : value) : string := "<repr>".

Definition sample_event : value :=
  JObj [("awslogs", JObj [("data", JStr sample_data)])].

Definition corrupted_event : value :=
  JObj [("awslogs", JObj [("data", JStr "abc")])].

Definition sample_context : LambdaContext :=
  {| function_version := Some (JStr "$LATEST");
     invoked_function_arn :=
       Some (JStr "arn:aws:lambda:us-east-1:123456789012:function:shipper") |}.

(** The metadata of the sample batch. *)
Definition sample_additional_data : dict :=
  [("logGroup", JStr "/aws/lambda/shipper-test");
   ("logStream", JStr "2024/01/01/[$LATEST]abcdef");
   ("messageType", JStr "DATA_MESSAGE");
   ("owner", JStr "123456789012");
   ("function_version", JStr "$LATEST");
   ("invoked_function_arn",
    JStr "arn:aws:lambda:us-east-1:123456789012:function:shipper");
   ("type", JStr "logzio_cloudwatch_lambda")].

(** A context object that has neither attribute. *)
Definition bare_context : LambdaContext :=
  {| function_version := None; invoked_function_arn := None |}.

(** An entry that carries both timestamp fields. *)
Definition both_timestamps : dict :=
  [("@timestamp", JStr "2024-01-01T00:00:00Z");
   ("timestamp", JInt 1704067200000);
   ("message", JStr "hello")].

Definition raw_entry : dict :=
  [("id", JStr "1"); ("timestamp", JInt 1704067200000); ("message", JStr "hello")].

(** A record whose [data] sub-field [x] meets a later field [x]. *)
Definition data_fields : dict :=
  [("x", JInt 1); ("code", JInt 500); ("nested", JObj [("y", JInt 2)])].

Definition data_record : dict :=
  [("data", JObj data_fields); ("x", JInt 2)].

(** Records for the JSON expansion step. *)
Definition code_record : dict := [("message", JStr code_message)].
Definition level_record : dict := [("message", JStr level_message)].
Definition text_record : dict := [("message", JStr "plain text")].

(** ** Further sample inputs *)

(** An object whose [level] is a number, and [json.loads] on it and on two
    documents that are not objects. *)
Definition level_number_object : value := JObj [("level", JInt 3)].
Definition level_number_message : string := dumps_plain level_number_object.

Definition scalar_json_loads (s : string) : option value :=
  if String.eqb s "5" then Some (JInt 5)
  else if String.eqb s "[1, 2]" then Some (JArr [JInt 1; JInt 2])
  else if String.eqb s level_number_message then Some level_number_object
  else sample_json_loads s.

Definition number_record : dict := [("message", JStr "5")].
Definition level_number_record : dict := [("message", JStr level_number_message)].
Definition numeric_message_record : dict := [("message", JInt 5)].

Definition timeout_entry : dict :=
  [("id", JStr "9"); ("timestamp", JInt 1704067203000);
   ("message",
    JStr "2024-01-01T00:00:03Z req-789 Task timed out after 3.00 seconds")].

Definition flat_record : dict :=
  [("message", JStr "hello"); ("@timestamp", JStr "1704067200000");
   ("code", JInt 500); ("ok", JBool true)].

Definition nested_record : dict :=
  [("message", JStr "hello"); ("tags", JArr [JStr "a"; JStr "b"]);
   ("ctx", JObj [("y", JInt 2)])].

Definition list_data_record : dict :=
  [("message", JStr "hello"); ("data", JArr [JInt 1])].

Definition no_timestamp_entry : dict := [("message", JStr "hello")].

(** The metadata of a batch from another kind of log group. *)
Definition ecs_additional_data : dict :=
  [("logGroup", JStr "/ecs/app");
   ("logStream", JStr "app/web/0123456789");
   ("messageType", JStr "DATA_MESSAGE");
   ("owner", JStr "123456789012");
   ("type", JStr "logzio_cloudwatch_lambda")].

Definition enrich_pairs : list (string * string) :=
  [("env", "prod"); ("team", "core")].

(** Payloads: an empty batch, a batch with an entry that is not a mapping,
    and a payload without [owner]. *)
Definition metadata_fields : dict :=
  [("messageType", JStr "DATA_MESSAGE");
   ("owner", JStr "123456789012");
   ("logGroup", JStr "/aws/lambda/shipper-test");
   ("logStream", JStr "2024/01/01/[$LATEST]abcdef")].

Definition empty_payload_fields : dict :=
  (metadata_fields ++ [("logEvents", JArr [])])%list.

Definition mixed_payload_fields : dict :=
  (metadata_fields
   ++ [("logEvents", JArr [JObj error_entry; JInt 7; JObj python_entry])])%list.

Definition ownerless_payload_fields : dict :=
  [("messageType", JStr "DATA_MESSAGE");
   ("logGroup", JStr "/aws/lambda/shipper-test");
   ("logStream", JStr "2024/01/01/[$LATEST]abcdef");
   ("logEvents", JArr [])].

Definition batch_docs : list (string * value) :=
  [("empty", JObj empty_payload_fields);
   ("mixed", JObj mixed_payload_fields);
   ("ownerless", JObj ownerless_payload_fields)].

(** The library functions on these payloads: the envelope of the payload
    named [n] carries the text "b64:n", which stands for the base64 of
    "gz:n", which stands for the gzip of the payload's JSON text. *)
Definition batch_b64decode (s : string) : option string :=
  match find (fun nd => String.eqb s ("b64:" ++ fst nd)) batch_docs with
  | Some nd => Some ("gz:" ++ fst nd)
  | None => sample_b64decode s
  end.

Definition batch_gunzip (b : string) : result string :=
  match find (fun nd => String.eqb b ("gz:" ++ fst nd)) batch_docs with
  | Some nd => Ok (dumps_plain (snd nd))
  | None => sample_gunzip b
  end.

Definition batch_json_loads (s : string) : option value :=
  match find (fun nd => String.eqb s (dumps_plain (snd nd))) batch_docs with
  | Some nd => Some (snd nd)
  | None => sample_json_loads s
  end.

Definition batch_event (name : string) : value :=
  JObj [("awslogs", JObj [("data", JStr ("b64:" ++ name))])].

(** An entry whose structured message carries an ignore-listed [level]
    next to a numeric [log_level], and [json.loads] on it. *)
Definition numeric_log_level_object : value :=
  JObj [("level", JStr "INFO"); ("log_level", JInt 30)].
Definition numeric_log_level_message : string :=
  dumps_plain numeric_log_level_object.

Definition severity_json_loads (s : string) : option value :=
  if String.eqb s numeric_log_level_message then Some numeric_log_level_object
  else sample_json_loads s.

Definition numeric_log_level_entry : dict :=
  [("id", JStr "5"); ("timestamp", JInt 1704067205000);
   ("message", JStr numeric_log_level_message)].

(** * The source functions *)

Section Pipeline.

Set Default Proof Using "Type".

(** [json.loads] on text (or on UTF-8 bytes): [None] stands for the
    [ValueError] it raises on input that is not a JSON document. *)
Variable json_loads : string -> option value.
(** [json.dumps] *)
Variable json_dumps : value -> string.
(** [base64.b64decode] on a [str]: [None] stands for [binascii.Error]. *)
Variable b64decode : string -> option string.
(** [gzip.GzipFile(fileobj=BytesIO(b)).read()] *)
Variable gunzip : string -> result string.
(** [repr] of a float, a list or a dict *)
Variable py_repr : value -> string.
(** [s.lower()] as text: Python's Unicode lower-casing *)
Variable unicode_lower : string -> string.

(** [str(v)] *)
Definition py_str (v : value) : string :=
  match v with
  | JStr s => s
  | JInt z => str_of_int z
  | JBool true => "True"
  | JBool false => "False"
  | JNull => "None"
  | _ => py_repr v
  end.

(** [json.loads(v)] for a value held by a record *)
Definition py_json_loads (v : value) : result value :=
  match v with
  | JStr s => match json_loads s with
              | Some j => Ok j
              | None => Err JSONDecodeError
              end
  | _ => Err TypeError
  end.

Definition _extract_aws_logs_data (event : value) : result value :=
  awslogs <- py_getitem event "awslogs" ;;
  event_str <- py_getitem awslogs "data" ;;
  let body : result value :=
    match event_str with
    | JStr s =>
        match b64decode s with
        | Some logs_data_decoded =>
            logs_data_unzipped <- gunzip logs_data_decoded ;;
            match json_loads logs_data_unzipped with
            | Some logs_data_dict => Ok logs_data_dict
            | None => Err JSONDecodeError
            end
        | None => Err BinasciiError
        end
    | _ => Err TypeError
    end in
  match body with
  | Ok logs_data_dict => Ok logs_data_dict
  | Err e => if is_ValueError e then Err ValueError else Err e
  end.

Definition _extract_lambda_log_message (log : dict) : result dict :=
  m <- dict_getitem log "message" ;;
  let str_message := py_str m in
  let message_parts := split_on TAB str_message in
  let size := length message_parts in
  let log :=
    if (size =? PYTHON_EVENT_SIZE)%nat || (size =? NODEJS_EVENT_SIZE)%nat
       || (size =? LAMBDA_JS_EVENT_SIZE)%nat
    then
      dict_set "message" (JStr (nth (size - 1) message_parts EmptyString))
        (dict_set "requestID" (JStr (nth 1 message_parts EmptyString))
           (dict_set "@timestamp" (JStr (nth 0 message_parts EmptyString)) log))
    else log in
  let log :=
    if (size =? NODEJS_EVENT_SIZE)%nat || (size =? LAMBDA_JS_EVENT_SIZE)%nat
    then dict_set "log_level"
           (JStr (unicode_lower (nth 2 message_parts EmptyString))) log
    else log in
  Ok log.

Definition _add_timestamp (log : dict) : result dict :=
  if negb (dict_mem "@timestamp" log) then
    ts <- dict_getitem log "timestamp" ;;
    Ok (dict_del "timestamp" (dict_set "@timestamp" (JStr (py_str ts)) log))
  else Ok log.

Definition _add_level (log : dict) : result dict :=
  if negb (dict_mem "level" log) then
    message <- dict_getitem log "message" ;;
    timed_out <- py_contains "Task timed out after" message ;;
    if timed_out then Ok (dict_set "level" (JStr "error") log) else Ok log
  else Ok log.

(** The body of the [try] of [_parse_to_json].  Every statement that can
    raise comes before the first assignment to [log]. *)
Definition _parse_to_json_try (env : environ) (log : dict) : result dict :=
  m <- dict_getitem log "message" ;;
  json_object <- py_json_loads m ;;
  fmt <- dict_getitem env "FORMAT" ;;
  if String.eqb (str_lower fmt) "json" then
    items <- py_items json_object ;;
    Ok (dict_update log items)
  else
    has_level <- py_contains "level" json_object ;;
    if has_level then
      log_level <- py_getitem json_object "level" ;;
      lowered <- py_lower log_level ;;
      if str_in lowered LOG_LEVELS
      then Ok (dict_set "log_level" log_level log)
      else Ok log
    else Ok log.

Definition _parse_to_json (env : environ) (log : dict) : result dict :=
  match _parse_to_json_try env log with
  | Ok log' => Ok log'
  | Err e => if is_KeyError e || is_ValueError e then Ok log else Err e
  end.

(** [message.startswith(...)] *)
Definition py_startswith (v : value) (p : string) : result bool :=
  match v with
  | JStr s => Ok (startswith s p)
  | _ => Err AttributeError
  end.

Definition _is_valid_log (log : dict) : result bool :=
  message <- dict_getitem log "message" ;;
  s <- py_startswith message "START" ;;
  is_info_log <-
    (if s then Ok true else
     e <- py_startswith message "END" ;;
     if e then Ok true else
     r <- py_startswith message "REPORT" ;;
     if r then Ok true else py_startswith message "INIT_START") ;;
  Ok (negb is_info_log).

(** [k in log and log[k].lower() in LOG_LEVELS_IGNORE] *)
Definition ignored_level (k : string) (log : dict) : result bool :=
  match dict_get k log with
  | Some v => l <- py_lower v ;; Ok (str_in l LOG_LEVELS_IGNORE)
  | None => Ok false
  end.

(** The last five lines of [_parse_cloudwatch_log]: the two severity
    tests and [return True]. *)
Definition severity_filter (log : dict) : result bool :=
  a <- ignored_level "log_level" log ;;
  if a then Ok false else
  b <- ignored_level "level" log ;;
  if b then Ok false else Ok true.

(** [log.update(additional_data); _parse_to_json(log)] *)
Definition merge_and_expand (env : environ) (additional_data log : dict)
  : result dict :=
  _parse_to_json env (dict_update log additional_data).

(** Returns the boolean the source returns and the record as the call
    leaves it. *)
Definition _parse_cloudwatch_log (env : environ) (log additional_data : dict)
  : result (bool * dict) :=
  log <- _add_timestamp log ;;
  log <- _add_level log ;;
  group <- dict_getitem additional_data "logGroup" ;;
  in_lambda <- py_contains LAMBDA_LOG_GROUP group ;;
  if in_lambda then
    valid <- _is_valid_log log ;;
    if valid then
      log <- _extract_lambda_log_message log ;;
      log <- merge_and_expand env additional_data log ;;
      keep <- severity_filter log ;;
      Ok (keep, log)
    else Ok (false, log)
  else
    log <- merge_and_expand env additional_data log ;;
    keep <- severity_filter log ;;
    Ok (keep, log).

(** The loop over [ENRICH]'s pairs. *)
Fixpoint enrich_properties (props : list string) (additional_data : dict)
  : result dict :=
  match props with
  | [] => Ok additional_data
  | property_to_enrich :: rest =>
      match split_on "="%char property_to_enrich with
      | k :: v :: _ => enrich_properties rest (dict_set k (JStr v) additional_data)
      | _ => Err IndexError
      end
  end.

(** [dict((key, aws_logs_data[key]) for key in additional_fields)] *)
Fixpoint copy_fields (aws_logs_data : value) (fields : list string) (acc : dict)
  : result dict :=
  match fields with
  | [] => Ok acc
  | key :: rest =>
      v <- py_getitem aws_logs_data key ;;
      copy_fields aws_logs_data rest (dict_set key v acc)
  end.

Definition _get_additional_logs_data (env : environ) (aws_logs_data : value)
    (context : LambdaContext) : result dict :=
  let additional_fields := ["logGroup"; "logStream"; "messageType"; "owner"] in
  additional_data <- copy_fields aws_logs_data additional_fields [] ;;
  (* try: the two attribute reads; except KeyError: log and go on *)
  additional_data <-
    match getattr (function_version context) with
    | Ok fv =>
        let additional_data := dict_set "function_version" fv additional_data in
        match getattr (invoked_function_arn context) with
        | Ok arn => Ok (dict_set "invoked_function_arn" arn additional_data)
        | Err e => if is_KeyError e then Ok additional_data else Err e
        end
    | Err e => if is_KeyError e then Ok additional_data else Err e
    end ;;
  (* try: ENRICH; except KeyError: pass *)
  additional_data <-
    match (enrich <- dict_getitem env "ENRICH" ;;
           match enrich with
           | EmptyString => Ok additional_data
           | _ => enrich_properties (split_on ";"%char enrich) additional_data
           end) with
    | Ok enriched => Ok enriched
    | Err e => if is_KeyError e then Ok additional_data else Err e
    end ;;
  (* try: TYPE; except KeyError: the default *)
  match dict_getitem env "TYPE" with
  | Ok t => Ok (dict_set "type" (JStr t) additional_data)
  | Err e =>
      if is_KeyError e
      then Ok (dict_set "type" (JStr "logzio_cloudwatch_lambda") additional_data)
      else Err e
  end.

Definition is_simple_value (v : value) : bool :=
  match v with
  | JStr _ | JInt _ | JFloat _ | JBool _ => true
  | _ => false
  end.

(** The inner loop of [flatten_object], over the items of [data]. *)
Definition promote (sub flattened : dict) : dict :=
  fold_left (fun acc kv =>
               if is_simple_value (snd kv) then dict_set (fst kv) (snd kv) acc
               else acc) sub flattened.

(** The outer loop of [flatten_object]. *)
Fixpoint flatten_items (items flattened : dict) : result dict :=
  match items with
  | [] => Ok flattened
  | (key, v) :: rest =>
      if is_simple_value v then flatten_items rest (dict_set key v flattened)
      else
        flattened <-
          (if String.eqb key "data"
           then sub <- py_items v ;; Ok (promote sub flattened)
           else Ok flattened) ;;
        flatten_items rest (dict_set key (JStr (json_dumps v)) flattened)
  end.

Definition flatten_object (obj : dict) : result dict :=
  flattened <- flatten_items obj [] ;;
  Ok (dict_set "logVerstion" (JStr "v3") flattened).

(** The [for] loop of [lambda_handler]; [shipper] is the list of calls
    made so far. *)
Fixpoint process_logs (env : environ) (additional_data : dict)
    (logs : list value) (shipper : list call) : list call * result unit :=
  match logs with
  | [] => (shipper, Ok tt)
  | JObj log :: rest =>
      match _parse_cloudwatch_log env log additional_data with
      | Err e => (shipper, Err e)
      | Ok (true, log) =>
          match flatten_object log with
          | Err e => (shipper, Err e)
          | Ok flattened =>
              process_logs env additional_data rest (shipper ++ [Add flattened])%list
          end
      | Ok (false, _) => process_logs env additional_data rest shipper
      end
  | _ :: _ => (shipper, Err TypeError)
  end.

(** The part of [lambda_handler] before the loop. *)
Definition handler_setup (env : environ) (event : value)
    (context : LambdaContext) : result (dict * list value) :=
  aws_logs_data <- _extract_aws_logs_data event ;;
  additional_data <- _get_additional_logs_data env aws_logs_data context ;;
  logEvents <- py_getitem aws_logs_data "logEvents" ;;
  logs <- py_iter logEvents ;;
  Ok (additional_data, logs).

Definition lambda_handler (env : environ) (event : value)
    (context : LambdaContext) : list call * result unit :=
  match handler_setup env event context with
  | Err e => ([], Err e)
  | Ok (additional_data, logs) =>
      match process_logs env additional_data logs [] with
      | (shipper, Ok _) => ((shipper ++ [Flush])%list, Ok tt)
      | (shipper, Err e) => (shipper, Err e)
      end
  end.


(** ** Definitions used to state the properties *)

(** [_parse_cloudwatch_log] up to and including [_parse_to_json]: the
    record as the severity tests see it, and [true]; or [false] and the
    record as it stands when the housekeeping test returns. *)
Definition normalize (env : environ) (log additional_data : dict)
  : result (bool * dict) :=
  log <- _add_timestamp log ;;
  log <- _add_level log ;;
  group <- dict_getitem additional_data "logGroup" ;;
  in_lambda <- py_contains LAMBDA_LOG_GROUP group ;;
  if in_lambda then
    valid <- _is_valid_log log ;;
    if valid then
      log <- _extract_lambda_log_message log ;;
      log <- merge_and_expand env additional_data log ;;
      Ok (true, log)
    else Ok (false, log)
  else
    log <- merge_and_expand env additional_data log ;;
    Ok (true, log).

(** Field [k] holds a string that, lower-cased, is on the ignore list. *)
Definition ignored_severity (k : string) (log : dict) : Prop :=
  exists s, dict_get k log = Some (JStr s)
            /\ str_in (str_lower s) LOG_LEVELS_IGNORE = true.

(** The message starts with a housekeeping marker. *)
Definition housekeeping (m : string) : bool :=
  startswith m "START" || startswith m "END" || startswith m "REPORT"
  || startswith m "INIT_START".

(** What one entry of the batch contributes to the Shipper. *)
Definition shipped (env : environ) (additional_data : dict) (entry : value)
  : list dict :=
  match entry with
  | JObj log =>
      match _parse_cloudwatch_log env log additional_data with
      | Ok (true, log') =>
          match flatten_object log' with
          | Ok flattened => [flattened]
          | Err _ => []
          end
      | _ => []
      end
  | _ => []
  end.

(** The kept records of a batch, flattened, in the batch's order. *)
Definition kept_records (env : environ) (additional_data : dict)
    (logs : list value) : list dict :=
  flat_map (shipped env additional_data) logs.


(** A field as [flatten_object] writes it when no promotion is involved:
    a primitive as it is, anything else as its JSON text. *)
Definition flat_field (kv : string * value) : string * value :=
  (fst kv,
   if is_simple_value (snd kv) then snd kv else JStr (json_dumps (snd kv))).

(** Every value of the record is a primitive. *)
Definition all_simple (d : dict) : Prop :=
  Forall (fun kv => is_simple_value (snd kv) = true) d.

(** [c in s] for one character *)
Fixpoint str_has (c : ascii) (s : string) : bool :=
  match s with
  | EmptyString => false
  | String a r => Ascii.eqb a c || str_has c r
  end.

(** The ENRICH text of a list of pairs: [k=v] joined by semicolons. *)
Definition enrich_text (pairs : list (string * string)) : string :=
  String.concat ";" (map (fun kv => fst kv ++ "=" ++ snd kv) pairs).

(** A key or value that can stand in an ENRICH pair as it is. *)
Definition enrich_plain (s : string) : Prop :=
  str_has ";" s = false /\ str_has "=" s = false.

(** The pairs as [additional_data] receives them. *)
Definition enrich_fields (pairs : list (string * string)) : dict :=
  map (fun kv => (fst kv, JStr (snd kv))) pairs.

(** The metadata built from a payload and a context, before ENRICH and TYPE. *)
Definition base_additional_data (group stream mtype owner fv arn : value) : dict :=
  [("logGroup", group); ("logStream", stream); ("messageType", mtype);
   ("owner", owner); ("function_version", fv); ("invoked_function_arn", arn)].

(** The value [type] ends with. *)
Definition type_tag (env : environ) : value :=
  match dict_get "TYPE" env with
  | Some t => JStr t
  | None => JStr "logzio_cloudwatch_lambda"
  end.

(** FORMAT selects the structured mode. *)
Definition structured (env : environ) : bool :=
  match dict_get "FORMAT" env with
  | Some fmt => String.eqb (str_lower fmt) "json"
  | None => false
  end.

(** A field that the severity tests let pass: absent, or a string that is
    not on the ignore list once lower-cased. *)
Definition passes_severity (k : string) (log : dict) : Prop :=
  dict_get k log = None \/
  exists s, dict_get k log = Some (JStr s)
            /\ str_in (str_lower s) LOG_LEVELS_IGNORE = false.

(** * Properties *)

(** ** Dictionaries *)

Lemma dict_get_set_eq {V} (k : string) (v : V) d :
  dict_get k (dict_set k v d) = Some v.
Proof.
  induction d as [|[k' v'] r IH]; simpl.
  - now rewrite String.eqb_refl.
  - destruct (String.eqb k k') eqn:E; simpl.
    + now rewrite String.eqb_refl.
    + now rewrite E.
Qed.

Lemma dict_get_set_neq {V} (k k' : string) (v : V) d :
  k <> k' -> dict_get k (dict_set k' v d) = dict_get k d.
Proof.
  intros Hne. apply String.eqb_neq in Hne.
  induction d as [|[k2 v2] r IH]; simpl.
  - now rewrite Hne.
  - destruct (String.eqb k' k2) eqn:E; simpl.
    + apply String.eqb_eq in E. subst k2. now rewrite Hne.
    + now rewrite IH.
Qed.

Lemma dict_get_del_eq {V} (k : string) (d : list (string * V)) :
  dict_get k (dict_del k d) = None.
Proof.
  induction d as [|[k' v'] r IH]; simpl; auto.
  destruct (String.eqb k k') eqn:E; simpl; auto.
  now rewrite E.
Qed.

Lemma dict_get_del_neq {V} (k k' : string) (d : list (string * V)) :
  k <> k' -> dict_get k (dict_del k' d) = dict_get k d.
Proof.
  intros Hne. apply String.eqb_neq in Hne.
  induction d as [|[k2 v2] r IH]; simpl; auto.
  destruct (String.eqb k' k2) eqn:E; simpl.
  - apply String.eqb_eq in E. subst k2. now rewrite Hne.
  - now rewrite IH.
Qed.

Lemma dict_get_None_iff {V} (k : string) (d : list (string * V)) :
  dict_get k d = None <-> ~ In k (keys d).
Proof.
  induction d as [|[k' v'] r IH]; simpl.
  - split; [intros _ [] | reflexivity].
  - destruct (String.eqb_spec k k') as [->|Hne].
    + split; [discriminate | intros H; exfalso; apply H; now left].
    + rewrite IH. split.
      * intros H [H1|H1]; [congruence | exact (H H1)].
      * intros H H1. apply H. now right.
Qed.

Lemma nth_pred_length_last {A} (l : list A) (d : A) :
  nth (length l - 1) l d = last l d.
Proof.
  induction l as [|a [|b r] IH]; simpl in *; auto.
  rewrite <- IH. now rewrite Nat.sub_0_r.
Qed.

(** Rewriting with discriminated lookups on literal keys. *)
Ltac dict_simpl :=
  repeat first
    [ rewrite dict_get_set_eq
    | rewrite dict_get_set_neq by (intro; discriminate)
    | rewrite dict_get_del_eq
    | rewrite dict_get_del_neq by (intro; discriminate) ].

(** ** Timestamp and level inference *)

Lemma dict_mem_true {V} (k : string) (d : list (string * V)) :
  dict_mem k d = true -> exists v, dict_get k d = Some v.
Proof.
  unfold dict_mem. destruct (dict_get k d); [eauto | discriminate].
Qed.

Lemma dict_mem_false {V} (k : string) (d : list (string * V)) :
  dict_mem k d = false <-> dict_get k d = None.
Proof.
  unfold dict_mem. destruct (dict_get k d); split; congruence.
Qed.

(** An entry with one of the two timestamp fields passes timestamp
    inference, which touches no other field. *)
Lemma add_timestamp_frame (log : dict) :
  dict_mem "@timestamp" log = true \/ dict_mem "timestamp" log = true ->
  exists log1,
    _add_timestamp log = Ok log1 /\
    forall k, k <> "@timestamp" -> k <> "timestamp" ->
              dict_get k log1 = dict_get k log.
Proof.
  intros Hts. unfold _add_timestamp.
  destruct (dict_mem "@timestamp" log) eqn:Hat; simpl.
  - eauto.
  - destruct Hts as [Hts|Hts]; [discriminate|].
    apply dict_mem_true in Hts. destruct Hts as [ts Hts].
    unfold dict_getitem. rewrite Hts. simpl.
    eexists. split; [reflexivity|].
    intros k H1 H2.
    rewrite dict_get_del_neq by assumption.
    now rewrite dict_get_set_neq by assumption.
Qed.

(** A record whose message is a string passes level inference, which
    touches no field but [level]. *)
Lemma add_level_frame (log : dict) (m : string) :
  dict_get "message" log = Some (JStr m) ->
  exists log2,
    _add_level log = Ok log2 /\
    forall k, k <> "level" -> dict_get k log2 = dict_get k log.
Proof.
  intros Hm. unfold _add_level.
  destruct (dict_mem "level" log); simpl; [eauto|].
  unfold dict_getitem. rewrite Hm. simpl.
  destruct (str_contains _ m); eexists; split; try reflexivity; auto.
  intros k Hk. now rewrite dict_get_set_neq by assumption.
Qed.

(** C4 (as amended).  For an entry without [@timestamp] that has a
    [timestamp] field, [_add_timestamp] sets [@timestamp] to
    [str(timestamp)], removes [timestamp] and leaves every other field as
    it was.  An entry that already carries [@timestamp] is returned
    unchanged, so a [timestamp] field next to it stays. *)
Theorem add_timestamp_infers_or_keeps :
  (forall (log : dict) (ts : value),
      dict_get "@timestamp" log = None ->
      dict_get "timestamp" log = Some ts ->
      exists log',
        _add_timestamp log = Ok log' /\
        dict_get "@timestamp" log' = Some (JStr (py_str ts)) /\
        dict_get "timestamp" log' = None /\
        forall k, k <> "@timestamp" -> k <> "timestamp" ->
                  dict_get k log' = dict_get k log) /\
  (forall log : dict,
      dict_mem "@timestamp" log = true -> _add_timestamp log = Ok log).
Proof.
  split.
  - intros log ts Hat Hts. unfold _add_timestamp.
    apply dict_mem_false in Hat. rewrite Hat. simpl.
    unfold dict_getitem. rewrite Hts. simpl.
    eexists. split; [reflexivity|]. repeat split.
    + rewrite dict_get_del_neq by (intro; discriminate).
      apply dict_get_set_eq.
    + apply dict_get_del_eq.
    + intros k H1 H2. rewrite dict_get_del_neq by assumption.
      now rewrite dict_get_set_neq by assumption.
  - intros log Hat. unfold _add_timestamp. now rewrite Hat.
Qed.

(** ** Housekeeping lines *)

Lemma is_valid_log_housekeeping (log : dict) (m : string) :
  dict_get "message" log = Some (JStr m) ->
  _is_valid_log log = Ok (negb (housekeeping m)).
Proof.
  intros Hm. unfold _is_valid_log, dict_getitem, housekeeping. rewrite Hm. simpl.
  destruct (startswith m "START"); simpl; auto.
  destruct (startswith m "END"); simpl; auto.
  destruct (startswith m "REPORT"); simpl; auto.
Qed.

(** ** Runtime-line splitting *)

(** C1.  [_extract_lambda_log_message] splits [str(log['message'])] on the
    tab character.  With 3, 4 or 5 parts it sets [@timestamp] to the first
    part, [requestID] to the second and [message] to the last; with 4 or
    5 parts it also sets [log_level] to the third part lower-cased by
    [str.lower()] (with 3 parts [log_level] keeps its value); with any
    other number of parts the record is returned as it was.  The five-part
    line
    "2024-01-01T00:00:00Z<TAB>req-123<TAB>INFO<TAB>extra<TAB>actual message"
    gives @timestamp "2024-01-01T00:00:00Z", requestID "req-123",
    log_level "info" ("INFO" lower-cased) and message "actual message".
    Under a managed-function log group, [_parse_cloudwatch_log] applies
    this step to every entry whose message is a string without a
    housekeeping marker, on the record that timestamp and level inference
    leave, and goes on with its result: the metadata merge, the JSON
    expansion and the severity tests. *)
Theorem extract_lambda_log_message_parts :
  (forall (log : dict) (m : value),
      dict_get "message" log = Some m ->
      let parts := split_on TAB (py_str m) in
      let n := length parts in
      exists log',
        _extract_lambda_log_message log = Ok log' /\
        (n = 3 \/ n = 4 \/ n = 5 ->
           dict_get "@timestamp" log' = Some (JStr (nth 0 parts EmptyString)) /\
           dict_get "requestID" log' = Some (JStr (nth 1 parts EmptyString)) /\
           dict_get "message" log' = Some (JStr (last parts EmptyString))) /\
        (n = 4 \/ n = 5 ->
           dict_get "log_level" log'
           = Some (JStr (unicode_lower (nth 2 parts EmptyString)))) /\
        (n = 3 -> dict_get "log_level" log' = dict_get "log_level" log) /\
        (n <> 3 /\ n <> 4 /\ n <> 5 -> log' = log)) /\
  (unicode_lower "INFO" = "info" ->
   forall log : dict,
      dict_get "message" log = Some (JStr nodejs_line) ->
      exists log',
        _extract_lambda_log_message log = Ok log' /\
        dict_get "@timestamp" log' = Some (JStr "2024-01-01T00:00:00Z") /\
        dict_get "requestID" log' = Some (JStr "req-123") /\
        dict_get "log_level" log' = Some (JStr "info") /\
        dict_get "message" log' = Some (JStr "actual message")) /\
  (forall (env : environ) (additional_data log : dict) (m : string)
          (group : value),
      dict_get "message" log = Some (JStr m) ->
      housekeeping m = false ->
      dict_mem "@timestamp" log = true \/ dict_mem "timestamp" log = true ->
      dict_get "logGroup" additional_data = Some group ->
      py_contains LAMBDA_LOG_GROUP group = Ok true ->
      exists log1 log2 log3,
        _add_timestamp log = Ok log1 /\
        _add_level log1 = Ok log2 /\
        dict_get "message" log2 = Some (JStr m) /\
        _extract_lambda_log_message log2 = Ok log3 /\
        _parse_cloudwatch_log env log additional_data
        = (l <- _parse_to_json env (dict_update log3 additional_data) ;;
           keep <- severity_filter l ;;
           Ok (keep, l))).
Proof.
  assert (Hgen : forall (log : dict) (m : value),
             dict_get "message" log = Some m ->
             let parts := split_on TAB (py_str m) in
             let n := length parts in
             exists log',
               _extract_lambda_log_message log = Ok log' /\
               (n = 3 \/ n = 4 \/ n = 5 ->
                dict_get "@timestamp" log' = Some (JStr (nth 0 parts EmptyString)) /\
                dict_get "requestID" log' = Some (JStr (nth 1 parts EmptyString)) /\
                dict_get "message" log' = Some (JStr (last parts EmptyString))) /\
               (n = 4 \/ n = 5 ->
                dict_get "log_level" log'
                = Some (JStr (unicode_lower (nth 2 parts EmptyString)))) /\
               (n = 3 -> dict_get "log_level" log' = dict_get "log_level" log) /\
               (n <> 3 /\ n <> 4 /\ n <> 5 -> log' = log)).
  { intros log m Hm parts n.
    unfold _extract_lambda_log_message, dict_getitem. rewrite Hm. simpl bind.
    fold parts. fold n.
    unfold PYTHON_EVENT_SIZE, NODEJS_EVENT_SIZE, LAMBDA_JS_EVENT_SIZE.
    eexists. split; [reflexivity|].
    repeat split.
    + destruct H as [H|[H|H]]; rewrite H; simpl; dict_simpl; reflexivity.
    + destruct H as [H|[H|H]]; rewrite H; simpl; dict_simpl; reflexivity.
    + rewrite <- nth_pred_length_last. fold n.
      destruct H as [H|[H|H]]; rewrite H; simpl; dict_simpl; reflexivity.
    + intros [H|H]; rewrite H; simpl; dict_simpl; reflexivity.
    + intros H; rewrite H; simpl; dict_simpl; reflexivity.
    + intros (H3 & H4 & H5).
      apply Nat.eqb_neq in H3, H4, H5. rewrite H3, H4, H5. reflexivity. }
  split; [exact Hgen | split].
  - intros Hinfo log Hm.
    destruct (Hgen log (JStr nodejs_line) Hm) as (log' & H & H345 & H45 & _).
    exists log'. split; [exact H|].
    destruct (H345 (or_intror (or_intror eq_refl))) as (A & B & C).
    repeat split; [exact A | exact B | | exact C].
    rewrite <- Hinfo. exact (H45 (or_intror eq_refl)).
  - intros env additional_data log m group Hm Hk Hts Hg Hin.
    destruct (add_timestamp_frame log Hts) as (log1 & H1 & F1).
    assert (Hm1 : dict_get "message" log1 = Some (JStr m))
      by (rewrite F1; [assumption | intro; discriminate | intro; discriminate]).
    destruct (add_level_frame log1 m Hm1) as (log2 & H2 & F2).
    assert (Hm2 : dict_get "message" log2 = Some (JStr m))
      by (rewrite F2; [assumption | intro; discriminate]).
    destruct (Hgen log2 (JStr m) Hm2) as (log3 & H3 & _).
    exists log1, log2, log3. repeat split; auto.
    unfold _parse_cloudwatch_log. rewrite H1. simpl. rewrite H2. simpl.
    unfold dict_getitem at 1. rewrite Hg. simpl. rewrite Hin. simpl.
    rewrite (is_valid_log_housekeeping log2 m Hm2), Hk. simpl.
    rewrite H3. reflexivity.
Qed.


(** C3.  Under a managed-function log group, an entry whose message
    starts with START, END, REPORT or INIT_START is dropped whatever its
    other fields hold: [_parse_cloudwatch_log] returns [False] with the
    record as timestamp and level inference left it (no metadata merged,
    no JSON expanded), and the handler's loop goes on to the next entry
    without flattening it or calling [add]. *)
Theorem housekeeping_line_dropped (env : environ) (additional_data log : dict)
    (m : string) (group : value) :
  dict_get "message" log = Some (JStr m) ->
  housekeeping m = true ->
  dict_mem "@timestamp" log = true \/ dict_mem "timestamp" log = true ->
  dict_get "logGroup" additional_data = Some group ->
  py_contains LAMBDA_LOG_GROUP group = Ok true ->
  exists log1 log2,
    _add_timestamp log = Ok log1 /\
    _add_level log1 = Ok log2 /\
    _parse_cloudwatch_log env log additional_data = Ok (false, log2) /\
    forall rest shipper,
      process_logs env additional_data (JObj log :: rest) shipper
      = process_logs env additional_data rest shipper.
Proof.
  intros Hm Hk Hts Hg Hin.
  destruct (add_timestamp_frame log Hts) as (log1 & H1 & F1).
  assert (Hm1 : dict_get "message" log1 = Some (JStr m))
    by (rewrite F1; [assumption | intro; discriminate | intro; discriminate]).
  destruct (add_level_frame log1 m Hm1) as (log2 & H2 & F2).
  assert (Hm2 : dict_get "message" log2 = Some (JStr m))
    by (rewrite F2; [assumption | intro; discriminate]).
  assert (Hp : _parse_cloudwatch_log env log additional_data = Ok (false, log2)).
  { unfold _parse_cloudwatch_log. rewrite H1. simpl. rewrite H2. simpl.
    unfold dict_getitem at 1. rewrite Hg. simpl. rewrite Hin. simpl.
    rewrite (is_valid_log_housekeeping log2 m Hm2), Hk. reflexivity. }
  exists log1, log2. repeat split; auto.
  intros rest shipper. simpl. now rewrite Hp.
Qed.

(** ** The severity filter *)

Lemma parse_cloudwatch_log_normalize (env : environ) (log additional_data : dict) :
  _parse_cloudwatch_log env log additional_data
  = (r <- normalize env log additional_data ;;
     if fst r then keep <- severity_filter (snd r) ;; Ok (keep, snd r)
     else Ok (false, snd r)).
Proof.
  unfold _parse_cloudwatch_log, normalize.
  destruct (_add_timestamp log) as [l1|]; simpl; auto.
  destruct (_add_level l1) as [l2|]; simpl; auto.
  destruct (dict_getitem additional_data "logGroup") as [g|]; simpl; auto.
  destruct (py_contains LAMBDA_LOG_GROUP g) as [[|]|]; simpl; auto.
  - destruct (_is_valid_log l2) as [[|]|]; simpl; auto.
    destruct (_extract_lambda_log_message l2) as [l3|]; simpl; auto.
    destruct (merge_and_expand env additional_data l3); simpl; auto.
  - destruct (merge_and_expand env additional_data l2); simpl; auto.
Qed.

Lemma ignored_level_hit (k : string) (log : dict) :
  ignored_severity k log -> ignored_level k log = Ok true.
Proof.
  intros (s & Hs & Hin). unfold ignored_level. rewrite Hs.
  unfold py_lower, bind. now rewrite Hin.
Qed.

Lemma severity_filter_ignored (log : dict) :
  ignored_severity "log_level" log \/ ignored_severity "level" log ->
  severity_filter log = Ok false \/
  (severity_filter log = Err AttributeError /\
   exists v, dict_get "log_level" log = Some v /\ forall s, v <> JStr s).
Proof.
  intros [H|H]; unfold severity_filter.
  - rewrite (ignored_level_hit _ _ H). now left.
  - rewrite (ignored_level_hit "level" _ H).
    unfold ignored_level.
    destruct (dict_get "log_level" log) as [v|]; [|left; reflexivity].
    destruct v as [| | | |s0| |]; unfold py_lower, bind;
      try (right; split; [reflexivity | eexists; split; [reflexivity | congruence]]).
    destruct (str_in (str_lower s0) LOG_LEVELS_IGNORE); left; reflexivity.
Qed.

(** C2 (where the code departs from the claim).  Take a record that
    leaves normalization with a [log_level] or a [level] that, lower-cased,
    is on the ignore list (["info"]).  If its [log_level] is absent or a
    string, [_parse_cloudwatch_log] returns [False] and the handler's loop
    goes on without flattening the record or calling [add], as the claim
    says.  If [level] is on the ignore list next to a [log_level] that is
    not a string, the test on [log_level] raises [AttributeError] before
    the test on [level] is reached: the record is not dropped, the
    exception leaves [_parse_cloudwatch_log] and stops the loop. *)
Theorem ignored_severity_drop_or_abort (env : environ)
    (additional_data log log' : dict) :
  normalize env log additional_data = Ok (true, log') ->
  ignored_severity "log_level" log' \/ ignored_severity "level" log' ->
  ((forall v, dict_get "log_level" log' = Some v -> exists s, v = JStr s) ->
   _parse_cloudwatch_log env log additional_data = Ok (false, log') /\
   forall rest shipper,
     process_logs env additional_data (JObj log :: rest) shipper
     = process_logs env additional_data rest shipper) /\
  (forall v, dict_get "log_level" log' = Some v -> (forall s, v <> JStr s) ->
   _parse_cloudwatch_log env log additional_data = Err AttributeError /\
   forall rest shipper,
     process_logs env additional_data (JObj log :: rest) shipper
     = (shipper, Err AttributeError)).
Proof.
  intros Hn Hs.
  pose proof (parse_cloudwatch_log_normalize env log additional_data) as Hp.
  rewrite Hn in Hp. simpl in Hp.
  destruct (severity_filter_ignored log' Hs) as [Hf|(Hf & v & Hv & Hns)];
    rewrite Hf in Hp; simpl in Hp.
  - split.
    + intros _. split; [exact Hp|].
      intros rest shipper. simpl. now rewrite Hp.
    + intros v Hv Hns. exfalso.
      unfold severity_filter, ignored_level in Hf. rewrite Hv in Hf.
      destruct v; simpl in Hf; try discriminate. now elim (Hns s).
  - split.
    + intros Hstr. destruct (Hstr v Hv) as [s ->]. now elim (Hns s).
    + intros v0 Hv0 _. split; [exact Hp|].
      intros rest shipper. simpl. now rewrite Hp.
Qed.

(** ** Embedded-JSON expansion *)

(** C10.  Without FORMAT in the environment [_parse_to_json] never
    changes the record: whatever it returns is the record it was given,
    and for a message that is a string (whether or not it parses, and
    whatever [level] the parsed document holds) it returns the record
    with no error. *)
Theorem parse_to_json_without_format (env : environ) (log : dict) :
  dict_get "FORMAT" env = None ->
  (forall log', _parse_to_json env log = Ok log' -> log' = log) /\
  (forall m, dict_get "message" log = Some (JStr m) ->
             _parse_to_json env log = Ok log).
Proof.
  intros Hf. split.
  - intros log'. unfold _parse_to_json, _parse_to_json_try, dict_getitem.
    rewrite Hf.
    destruct (dict_get "message" log) as [m|]; simpl; [|congruence].
    destruct (py_json_loads m) as [j|e]; simpl; [congruence|].
    destruct (is_KeyError e || is_ValueError e); congruence.
  - intros m Hm. unfold _parse_to_json, _parse_to_json_try, dict_getitem.
    rewrite Hm, Hf. simpl.
    destruct (json_loads m); reflexivity.
Qed.

(** ** The context enricher *)

(** C5 (where the code departs from the claim).  On a context object that
    lacks [function_version] or [invoked_function_arn] the attribute read
    raises [AttributeError]; the handler around it catches [KeyError] only,
    so [_get_additional_logs_data] raises instead of going on without the
    field, and [lambda_handler] ends with that error before any Shipper
    call. *)
Theorem missing_context_attribute_raises (env : environ)
    (event aws_logs_data : value) (context : LambdaContext) (fields : dict) :
  _extract_aws_logs_data event = Ok aws_logs_data ->
  copy_fields aws_logs_data ["logGroup"; "logStream"; "messageType"; "owner"] []
  = Ok fields ->
  function_version context = None \/ invoked_function_arn context = None ->
  _get_additional_logs_data env aws_logs_data context = Err AttributeError /\
  lambda_handler env event context = ([], Err AttributeError).
Proof.
  intros He Hc Hm.
  assert (Ha : _get_additional_logs_data env aws_logs_data context
               = Err AttributeError).
  { unfold _get_additional_logs_data. rewrite Hc. simpl bind.
    destruct (function_version context); simpl; [|reflexivity].
    destruct Hm as [Hm|Hm]; [discriminate|]. now rewrite Hm. }
  split; [exact Ha|].
  unfold lambda_handler, handler_setup. rewrite He. simpl bind. now rewrite Ha.
Qed.

(** ** The decoder *)

(** C8.  When the envelope's [data] string fails base64 decoding, or the
    decoded bytes fail decompression, or the decompressed text fails JSON
    parsing, [_extract_aws_logs_data] raises and so does [lambda_handler],
    with no call made on the Shipper.  A base64 or JSON failure surfaces
    as [ValueError]; a decompression failure surfaces as [ValueError] if it
    is one and as itself otherwise. *)
Theorem decode_failure_aborts_batch (env : environ) (event awslogs : value)
    (context : LambdaContext) (data : string) :
  py_getitem event "awslogs" = Ok awslogs ->
  py_getitem awslogs "data" = Ok (JStr data) ->
  b64decode data = None \/
  (exists b, b64decode data = Some b /\
             ((exists e0, gunzip b = Err e0) \/
              (exists u, gunzip b = Ok u /\ json_loads u = None))) ->
  exists e,
    _extract_aws_logs_data event = Err e /\
    lambda_handler env event context = ([], Err e) /\
    (b64decode data = None -> e = ValueError) /\
    (forall b e0, b64decode data = Some b -> gunzip b = Err e0 ->
                  e = if is_ValueError e0 then ValueError else e0) /\
    (forall b u, b64decode data = Some b -> gunzip b = Ok u ->
                 json_loads u = None -> e = ValueError).
Proof.
  intros Ha Hd Hfail.
  assert (Hx : forall e, _extract_aws_logs_data event = Err e ->
                         lambda_handler env event context = ([], Err e)).
  { intros e He. unfold lambda_handler, handler_setup. now rewrite He. }
  unfold _extract_aws_logs_data in *. rewrite Ha in *. simpl bind in *.
  rewrite Hd in *. simpl bind in *.
  destruct Hfail as [Hb|(b & Hb & [(e0 & Hg)|(u & Hg & Hj)])]; rewrite Hb in *.
  - exists ValueError. simpl in *.
    split; [reflexivity | split; [now apply Hx |]].
    repeat split; intros; congruence.
  - rewrite Hg in *. simpl in *.
    exists (if is_ValueError e0 then ValueError else e0).
    assert (He : (if is_ValueError e0 then @Err value ValueError else Err e0)
                 = Err (if is_ValueError e0 then ValueError else e0))
      by (destruct (is_ValueError e0); reflexivity).
    rewrite He in *.
    split; [reflexivity | split; [now apply Hx |]].
    split; [discriminate | split].
    + intros b' e1 Hb' He1. injection Hb' as <-.
      rewrite Hg in He1. now injection He1 as <-.
    + intros b' u Hb' Hu. injection Hb' as <-. congruence.
  - rewrite Hg in *. simpl in *. rewrite Hj in *. simpl in *.
    exists ValueError.
    split; [reflexivity | split; [now apply Hx |]].
    repeat split; intros; congruence.
Qed.

(** ** The handler's loop *)



(** A loop that runs to its end has added the kept records, in order,
    after the calls made before it. *)
Lemma process_logs_trace (env : environ) (additional_data : dict)
    (logs : list value) :
  forall shipper shipper',
    process_logs env additional_data logs shipper = (shipper', Ok tt) ->
    shipper' = (shipper ++ map Add (kept_records env additional_data logs))%list.
Proof.
  induction logs as [|entry rest IH]; intros shipper shipper' H.
  - simpl in *. rewrite app_nil_r. congruence.
  - change (kept_records env additional_data (entry :: rest))
      with (shipped env additional_data entry
            ++ kept_records env additional_data rest)%list.
    unfold shipped. simpl in H.
    destruct entry; try discriminate.
    destruct (_parse_cloudwatch_log env d additional_data) as [[[|] l]|];
      try discriminate.
    + destruct (flatten_object l) as [f|]; try discriminate.
      apply IH in H. rewrite H. simpl. now rewrite <- app_assoc.
    + now apply IH in H.
Qed.



(** ** Flattening *)

Lemma flatten_items_app (l1 l2 flattened : dict) :
  flatten_items (l1 ++ l2)%list flattened
  = (f <- flatten_items l1 flattened ;; flatten_items l2 f).
Proof.
  revert flattened.
  induction l1 as [|[key v] rest IH]; intros flattened; simpl; auto.
  destruct (is_simple_value v); auto.
  destruct (if String.eqb key "data"
            then sub <- py_items v ;; Ok (promote sub flattened)
            else Ok flattened); simpl; auto.
Qed.

(** Away from a [data] field the loop succeeds and writes only the keys
    it visits. *)
Lemma flatten_items_frame (items : dict) :
  ~ In "data" (keys items) ->
  forall flattened, exists out,
    flatten_items items flattened = Ok out /\
    forall k, ~ In k (keys items) -> dict_get k out = dict_get k flattened.
Proof.
  induction items as [|[key v] rest IH]; intros Hd flattened; simpl in *.
  - eauto.
  - assert (Hkey : String.eqb key "data" = false)
      by (apply String.eqb_neq; intros ->; apply Hd; now left).
    assert (Hrest : ~ In "data" (keys rest))
      by (intros Hin; apply Hd; now right).
    rewrite Hkey.
    destruct (is_simple_value v); simpl;
      match goal with
      | |- context [flatten_items rest ?acc] =>
          destruct (IH Hrest acc) as (out & Ho & Hf)
      end;
      exists out; (split; [assumption|]);
      intros k Hk;
      (rewrite Hf by (intros Hin; apply Hk; now right));
      apply dict_get_set_neq; intros ->; apply Hk; now left.
Qed.

(** What the promotion loop leaves under a key. *)
Lemma promote_get (sub : dict) :
  NoDup (keys sub) ->
  forall flattened k,
    dict_get k (promote sub flattened)
    = match dict_get k sub with
      | Some v => if is_simple_value v then Some v else dict_get k flattened
      | None => dict_get k flattened
      end.
Proof.
  unfold promote.
  induction sub as [|[k1 v1] rest IH]; intros Hnd flattened k; simpl in *; auto.
  inversion Hnd as [|? ? Hnotin Hnd']; subst.
  rewrite IH by assumption.
  destruct (String.eqb_spec k k1) as [->|Hne].
  - apply dict_get_None_iff in Hnotin. rewrite Hnotin.
    destruct (is_simple_value v1); auto using dict_get_set_eq.
  - destruct (dict_get k rest) as [v|]; [destruct (is_simple_value v); auto|];
      destruct (is_simple_value v1); auto using dict_get_set_neq.
Qed.

(** C9 (as amended).  For a record with a field [data] that holds a
    mapping, [flatten_object] succeeds; it stores [json.dumps] of the
    whole mapping under [data] and "v3" under [logVerstion]; a primitive
    sub-field of [data] is found in the output under its own key, with its
    own value, unless that key is [data], [logVerstion] or the key of a
    record field that comes after [data] (the later write wins); a
    composite sub-field is not promoted: its key is absent from the
    output unless the record itself has a field of that name. *)
Theorem flatten_object_data_promotion (pre post sub : dict) :
  NoDup (keys (pre ++ ("data", JObj sub) :: post)%list) ->
  NoDup (keys sub) ->
  exists out,
    flatten_object (pre ++ ("data", JObj sub) :: post)%list = Ok out /\
    dict_get "data" out = Some (JStr (json_dumps (JObj sub))) /\
    dict_get "logVerstion" out = Some (JStr "v3") /\
    (forall k v,
        dict_get k sub = Some v -> is_simple_value v = true ->
        k <> "data" -> k <> "logVerstion" -> ~ In k (keys post) ->
        dict_get k out = Some v) /\
    (forall k v,
        dict_get k sub = Some v -> is_simple_value v = false ->
        k <> "data" -> k <> "logVerstion" ->
        ~ In k (keys pre) -> ~ In k (keys post) ->
        dict_get k out = None).
Proof.
  intros Hnd Hsub.
  unfold keys in Hnd. rewrite map_app in Hnd. simpl in Hnd.
  pose proof (NoDup_remove_2 _ _ _ Hnd) as Hdata.
  rewrite in_app_iff in Hdata. fold (keys pre) (keys post) in Hdata.
  assert (Hpre : ~ In "data" (keys pre))
    by (intros Hin; apply Hdata; now left).
  assert (Hpost : ~ In "data" (keys post))
    by (intros Hin; apply Hdata; now right).
  destruct (flatten_items_frame pre Hpre []) as (out1 & H1 & F1).
  destruct (flatten_items_frame post Hpost
              (dict_set "data" (JStr (json_dumps (JObj sub))) (promote sub out1)))
    as (out2 & H2 & F2).
  exists (dict_set "logVerstion" (JStr "v3") out2).
  split.
  { unfold flatten_object. rewrite flatten_items_app, H1. simpl.
    now rewrite H2. }
  split.
  { rewrite dict_get_set_neq by (intro; discriminate).
    rewrite F2 by assumption. apply dict_get_set_eq. }
  split.
  { apply dict_get_set_eq. }
  split.
  - intros k v Hk Hs Hkd Hkv Hkp.
    rewrite dict_get_set_neq by assumption.
    rewrite F2 by assumption.
    rewrite dict_get_set_neq by assumption.
    rewrite promote_get by assumption. now rewrite Hk, Hs.
  - intros k v Hk Hs Hkd Hkv Hkpre Hkpost.
    rewrite dict_get_set_neq by assumption.
    rewrite F2 by assumption.
    rewrite dict_get_set_neq by assumption.
    rewrite promote_get by assumption. rewrite Hk, Hs.
    now rewrite F1 by assumption.
Qed.

(** * Further properties of the source functions *)

(** ** Dictionaries, continued *)

Lemma dict_set_fresh {V} (k : string) (v : V) (d : list (string * V)) :
  ~ In k (keys d) -> dict_set k v d = (d ++ [(k, v)])%list.
Proof.
  induction d as [|[k' v'] r IH]; simpl; intros Hk; auto.
  destruct (String.eqb_spec k k') as [->|Hne].
  - exfalso. apply Hk. now left.
  - rewrite IH; auto.
Qed.

Lemma keys_dict_set_present {V} (k : string) (v : V) (d : list (string * V)) :
  In k (keys d) -> keys (dict_set k v d) = keys d.
Proof.
  induction d as [|[k' v'] r IH]; simpl; intros Hk.
  - destruct Hk.
  - destruct (String.eqb_spec k k') as [->|Hne]; simpl; auto.
    destruct Hk as [Hk|Hk]; [congruence|]. now rewrite IH.
Qed.

Lemma dict_set_NoDup {V} (k : string) (v : V) (d : list (string * V)) :
  NoDup (keys d) -> NoDup (keys (dict_set k v d)).
Proof.
  intros Hnd. destruct (in_dec string_dec k (keys d)) as [Hin|Hnotin].
  - now rewrite keys_dict_set_present.
  - rewrite dict_set_fresh by assumption.
    unfold keys. rewrite map_app. simpl.
    apply NoDup_app; auto.
    + repeat constructor. intros [].
    + intros x Hx [<-|[]]. now apply Hnotin.
Qed.

Lemma dict_set_Forall {V} (P : string * V -> Prop) (k : string) (v : V)
    (d : list (string * V)) :
  Forall P d -> P (k, v) -> Forall P (dict_set k v d).
Proof.
  intros Hd Hv. induction Hd as [|[k' v'] r Hx Hr IH]; simpl.
  - now repeat constructor.
  - destruct (String.eqb k k'); constructor; auto.
Qed.

Lemma dict_get_In {V} (k : string) (v : V) (d : list (string * V)) :
  dict_get k d = Some v -> In (k, v) d.
Proof.
  induction d as [|[k' v'] r IH]; simpl; [discriminate|].
  destruct (String.eqb_spec k k') as [->|Hne].
  - intros [= ->]. now left.
  - intros H. right. auto.
Qed.

Lemma In_dict_get {V} (k : string) (v : V) (d : list (string * V)) :
  NoDup (keys d) -> In (k, v) d -> dict_get k d = Some v.
Proof.
  induction d as [|[k' v'] r IH]; simpl; intros Hnd Hin; [destruct Hin|].
  inversion Hnd as [|? ? Hnotin Hnd']; subst.
  destruct Hin as [[= -> ->]|Hin].
  - now rewrite String.eqb_refl.
  - destruct (String.eqb_spec k k') as [->|Hne]; auto.
    exfalso. apply Hnotin. change k' with (fst (k', v)). now apply in_map.
Qed.

(** What [d.update(other)] leaves under a key. *)
Lemma dict_get_update {V} (other : list (string * V)) :
  NoDup (keys other) ->
  forall (d : list (string * V)) (k : string),
    dict_get k (dict_update d other)
    = match dict_get k other with
      | Some v => Some v
      | None => dict_get k d
      end.
Proof.
  unfold dict_update.
  induction other as [|[k1 v1] r IH]; intros Hnd d k; simpl in *; auto.
  inversion Hnd as [|? ? Hnotin Hnd']; subst.
  rewrite IH by assumption.
  destruct (String.eqb_spec k k1) as [->|Hne].
  - apply dict_get_None_iff in Hnotin. rewrite Hnotin. apply dict_get_set_eq.
  - destruct (dict_get k r); auto using dict_get_set_neq.
Qed.

(** ** Flattening, continued *)

Lemma promote_invariant (P : string * value -> Prop) (sub : dict) :
  (forall k v, is_simple_value v = true -> P (k, v)) ->
  forall flattened,
    NoDup (keys flattened) -> Forall P flattened ->
    NoDup (keys (promote sub flattened)) /\ Forall P (promote sub flattened).
Proof.
  intros HP. unfold promote.
  induction sub as [|[k v] r IH]; intros flattened Hnd Hall; simpl; auto.
  destruct (is_simple_value v) eqn:Hs; auto.
  apply IH; auto using dict_set_NoDup, dict_set_Forall.
Qed.

Lemma flatten_items_invariant (items : dict) :
  forall flattened out,
    flatten_items items flattened = Ok out ->
    NoDup (keys flattened) -> all_simple flattened ->
    NoDup (keys out) /\ all_simple out.
Proof.
  unfold all_simple.
  induction items as [|[key v] rest IH]; intros flattened out H Hnd Hall; simpl in H.
  - injection H as <-. auto.
  - destruct (is_simple_value v) eqn:Hs.
    + eapply IH; eauto using dict_set_NoDup. now apply dict_set_Forall.
    + destruct (String.eqb key "data").
      * destruct (py_items v) as [sub|]; simpl in H; [|discriminate].
        destruct (promote_invariant
                    (fun kv => is_simple_value (snd kv) = true) sub
                    (fun _ _ Hv => Hv) flattened Hnd Hall) as (Hnd' & Hall').
        eapply IH; eauto using dict_set_NoDup. now apply dict_set_Forall.
      * simpl in H.
        eapply IH; eauto using dict_set_NoDup. now apply dict_set_Forall.
Qed.

(** X1.  Whatever record it is given, a flattened record has unique keys, holds
    only primitive values (strings, numbers, booleans) and carries
    [logVerstion] = "v3". *)
Theorem flatten_object_output_flat (obj out : dict) :
  flatten_object obj = Ok out ->
  NoDup (keys out) /\ all_simple out /\
  dict_get "logVerstion" out = Some (JStr "v3").
Proof.
  unfold flatten_object. intros H.
  destruct (flatten_items obj []) as [f|] eqn:Hf; simpl in H; [|discriminate].
  injection H as <-.
  destruct (flatten_items_invariant obj [] f Hf) as (Hnd & Hall);
    [constructor | constructor |].
  repeat split.
  - now apply dict_set_NoDup.
  - now apply dict_set_Forall.
  - apply dict_get_set_eq.
Qed.

(** Without a composite [data] the loop appends the fields one by one. *)
Lemma flatten_items_plain (items : dict) :
  (forall v, In ("data", v) items -> is_simple_value v = true) ->
  forall flattened,
    NoDup (keys flattened ++ keys items) ->
    flatten_items items flattened = Ok (flattened ++ map flat_field items)%list.
Proof.
  induction items as [|[key v] rest IH]; intros Hdata flattened Hnd; simpl.
  - now rewrite app_nil_r.
  - assert (Hfresh : ~ In key (keys flattened)).
    { intros Hin. apply NoDup_remove_2 in Hnd. apply Hnd.
      apply in_or_app. now left. }
    assert (Hnd' : forall x,
               NoDup (keys (flattened ++ [(key, x)]) ++ keys rest)).
    { intros x. unfold keys. rewrite map_app. simpl.
      rewrite <- app_assoc. exact Hnd. }
    assert (Hrest : forall v0, In ("data", v0) rest -> is_simple_value v0 = true)
      by (intros v0 Hin; apply Hdata; now right).
    unfold flat_field at 1. simpl.
    destruct (is_simple_value v) eqn:Hs.
    + rewrite dict_set_fresh by assumption.
      rewrite IH by auto. now rewrite <- app_assoc.
    + assert (Hkey : String.eqb key "data" = false).
      { apply String.eqb_neq. intros ->.
        rewrite (Hdata v (or_introl eq_refl)) in Hs. discriminate. }
      rewrite Hkey. simpl.
      rewrite dict_set_fresh by assumption.
      rewrite IH by auto. now rewrite <- app_assoc.
Qed.

(** X2.  For a record whose [data] field, if any, is a primitive, flattening
    keeps the fields in their order, passes primitives through, replaces
    every other value by its [json.dumps] text, and then sets [logVerstion]
    to "v3" (over a field of that name if the record has one). *)
Theorem flatten_object_without_promotion (obj : dict) :
  NoDup (keys obj) ->
  (forall v, dict_get "data" obj = Some v -> is_simple_value v = true) ->
  flatten_object obj
  = Ok (dict_set "logVerstion" (JStr "v3") (map flat_field obj)).
Proof.
  intros Hnd Hdata. unfold flatten_object.
  rewrite (flatten_items_plain obj); simpl; auto.
  intros v Hin. apply Hdata. now apply In_dict_get.
Qed.

(** X3.  Flattening a record with unique keys whose values are all primitive
    returns the record itself with [logVerstion] set to "v3". *)
Theorem flatten_object_primitive_identity (obj : dict) :
  NoDup (keys obj) -> all_simple obj ->
  flatten_object obj = Ok (dict_set "logVerstion" (JStr "v3") obj).
Proof.
  intros Hnd Hall. unfold flatten_object.
  rewrite (flatten_items_plain obj); simpl; auto.
  - do 2 f_equal. induction Hall as [|[k v] r Hx Hr IH]; simpl; auto.
    inversion Hnd; subst. rewrite IH by assumption.
    unfold flat_field. simpl in *. now rewrite Hx.
  - intros v Hin. unfold all_simple in Hall. rewrite Forall_forall in Hall.
    exact (Hall _ Hin).
Qed.

Lemma flatten_items_error (items : dict) :
  forall flattened e,
    flatten_items items flattened = Err e ->
    e = AttributeError /\
    exists v, In ("data", v) items /\ is_simple_value v = false
              /\ py_items v = Err AttributeError.
Proof.
  induction items as [|[key v] rest IH]; intros flattened e H; simpl in H.
  - discriminate.
  - assert (Hlift : forall acc,
               flatten_items rest acc = Err e ->
               e = AttributeError /\
               exists v0, In ("data", v0) ((key, v) :: rest)
                          /\ is_simple_value v0 = false
                          /\ py_items v0 = Err AttributeError).
    { intros acc Hacc. destruct (IH _ _ Hacc) as (He & v0 & Hin & Hs & Hi).
      split; auto. exists v0. repeat split; auto. now right. }
    destruct (is_simple_value v) eqn:Hs; [eauto|].
    destruct (String.eqb_spec key "data") as [->|Hne]; simpl in H; [|eauto].
    destruct v; simpl in H; try discriminate; eauto;
      injection H as <-; (split; [reflexivity|]);
      eexists; (split; [now left|]); split; reflexivity.
Qed.

Lemma flatten_items_bad_data (items : dict) (v : value) :
  In ("data", v) items -> is_simple_value v = false ->
  (forall d, v <> JObj d) ->
  forall flattened, flatten_items items flattened = Err AttributeError.
Proof.
  intros Hin Hs Hobj.
  induction items as [|[key w] rest IH]; intros flattened; [destruct Hin|].
  assert (Hgo : forall acc,
             flatten_items rest acc = Err AttributeError \/ (key, w) = ("data", v)).
  { intros acc. destruct Hin as [Heq|Hin]; auto. }
  simpl.
  destruct (is_simple_value w) eqn:Hw.
  - destruct (Hgo (dict_set key w flattened)) as [H|[= -> ->]]; auto. congruence.
  - destruct (String.eqb_spec key "data") as [->|Hne]; simpl.
    + destruct w; simpl; try reflexivity.
      destruct (Hgo (dict_set "data" (JStr (json_dumps (JObj d)))
                       (promote d flattened))) as [H|[= <-]]; auto.
      now elim (Hobj d).
    + destruct (Hgo (dict_set key (JStr (json_dumps w)) flattened))
        as [H|[= -> ->]]; auto. congruence.
Qed.

(** X4.  [flatten_object] raises only [AttributeError], and only for a record
    with a [data] field that is neither a primitive nor a mapping (a list or
    null); and for every such record it does raise. *)
Theorem flatten_object_failure (obj : dict) :
  (forall e, flatten_object obj = Err e ->
     e = AttributeError /\
     exists v, In ("data", v) obj /\ is_simple_value v = false
               /\ forall d, v <> JObj d) /\
  (forall v, In ("data", v) obj -> is_simple_value v = false ->
             (forall d, v <> JObj d) ->
             flatten_object obj = Err AttributeError).
Proof.
  split.
  - intros e H. unfold flatten_object in H.
    destruct (flatten_items obj []) as [f|e'] eqn:Hf; simpl in H; [discriminate|].
    injection H as <-.
    destruct (flatten_items_error _ _ _ Hf) as (He & v & Hin & Hs & Hi).
    split; auto. exists v. repeat split; auto.
    intros d ->. discriminate.
  - intros v Hin Hs Hobj. unfold flatten_object.
    now rewrite (flatten_items_bad_data obj v Hin Hs Hobj).
Qed.

(** ** Embedded-JSON expansion, continued *)

Lemma structured_format (env : environ) :
  structured env = true ->
  exists fmt, dict_get "FORMAT" env = Some fmt
              /\ String.eqb (str_lower fmt) "json" = true.
Proof.
  unfold structured. destruct (dict_get "FORMAT" env); [eauto | discriminate].
Qed.

(** C6 (as amended).  [_parse_to_json] returns the record unchanged and
    raises nothing when the message is a string that [json.loads] rejects.
    Outside structured mode (FORMAT unset or not "json") it also returns
    the record unchanged and raises nothing when the message parses to a
    document without a recognized level: whatever the document if FORMAT
    is unset; and with FORMAT set, a document on which ['level' in
    json_object] is false (an object without a [level] key, an array
    without the element "level", a string without the text "level") or an
    object whose [level] is a string outside LOG_LEVELS.  In structured
    mode a message that parses to an object is merged into the record,
    every key of the object with its value, whether or not the object has
    a [level]. *)
Theorem parse_to_json_noop :
  (forall (env : environ) (log : dict) (m : string),
      dict_get "message" log = Some (JStr m) ->
      json_loads m = None ->
      _parse_to_json env log = Ok log) /\
  (forall (env : environ) (log : dict) (m : string) (json_object : value),
      dict_get "message" log = Some (JStr m) ->
      json_loads m = Some json_object ->
      structured env = false ->
      dict_get "FORMAT" env = None \/
      py_contains "level" json_object = Ok false \/
      (exists d l, json_object = JObj d
                   /\ dict_get "level" d = Some (JStr l)
                   /\ str_in (str_lower l) LOG_LEVELS = false) ->
      _parse_to_json env log = Ok log) /\
  (forall (env : environ) (log : dict) (m : string) (json_object : dict),
      dict_get "message" log = Some (JStr m) ->
      json_loads m = Some (JObj json_object) ->
      structured env = true ->
      _parse_to_json env log = Ok (dict_update log json_object) /\
      (NoDup (keys json_object) ->
       forall k v, dict_get k json_object = Some v ->
                   dict_get k (dict_update log json_object) = Some v)).
Proof.
  split; [|split].
  - intros env log m Hm Hj.
    unfold _parse_to_json, _parse_to_json_try, dict_getitem.
    rewrite Hm. simpl. now rewrite Hj.
  - intros env log m json_object Hm Hj Hs Hlevel.
    unfold _parse_to_json, _parse_to_json_try, dict_getitem.
    rewrite Hm. simpl. rewrite Hj. simpl.
    unfold structured in Hs.
    destruct (dict_get "FORMAT" env) as [fmt|]; [|reflexivity].
    simpl. rewrite Hs.
    destruct Hlevel as [Hf|[Hc|(d & l & -> & Hl & Hin)]].
    + discriminate.
    + now rewrite Hc.
    + unfold py_contains, dict_mem, bind. rewrite Hl.
      unfold py_getitem, dict_getitem. rewrite Hl. simpl. now rewrite Hin.
  - intros env log m json_object Hm Hj Hs.
    destruct (structured_format env Hs) as (fmt & Hf & Hjson).
    split.
    + unfold _parse_to_json, _parse_to_json_try, dict_getitem.
      rewrite Hm. simpl. rewrite Hj. simpl. rewrite Hf. simpl.
      now rewrite Hjson.
    + intros Hnd k v Hk. rewrite dict_get_update by assumption. now rewrite Hk.
Qed.

(** X5.  In structured mode (FORMAT is "json" in any letter case) a message
    that parses to a JSON object is merged into the record: every key of
    the object ends with the object's value, over a field of that name if
    the record has one, and every other field keeps its value. *)
Theorem parse_to_json_structured_merge (env : environ) (log : dict)
    (m : string) (json_object : dict) :
  dict_get "message" log = Some (JStr m) ->
  json_loads m = Some (JObj json_object) ->
  structured env = true ->
  NoDup (keys json_object) ->
  _parse_to_json env log = Ok (dict_update log json_object) /\
  forall k,
    dict_get k (dict_update log json_object)
    = match dict_get k json_object with
      | Some v => Some v
      | None => dict_get k log
      end.
Proof.
  intros Hm Hj Hs Hnd. destruct (structured_format env Hs) as (fmt & Hf & Hjson).
  split; [|intros k; now apply dict_get_update].
  unfold _parse_to_json, _parse_to_json_try, dict_getitem.
  rewrite Hm. simpl. rewrite Hj. simpl. rewrite Hf. simpl.
  now rewrite Hjson.
Qed.

(** X6.  Outside structured mode, with FORMAT set, a message that parses to a
    JSON object whose [level] is a string in LOG_LEVELS (compared
    lower-cased) sets [log_level] to that string as it is spelled in the
    message; no other field of the record changes and no other key of the
    object is taken. *)
Theorem parse_to_json_extracts_level (env : environ) (log : dict)
    (m fmt l : string) (json_object : dict) :
  dict_get "message" log = Some (JStr m) ->
  json_loads m = Some (JObj json_object) ->
  dict_get "FORMAT" env = Some fmt ->
  String.eqb (str_lower fmt) "json" = false ->
  dict_get "level" json_object = Some (JStr l) ->
  str_in (str_lower l) LOG_LEVELS = true ->
  _parse_to_json env log = Ok (dict_set "log_level" (JStr l) log) /\
  dict_get "log_level" (dict_set "log_level" (JStr l) log) = Some (JStr l) /\
  forall k, k <> "log_level" ->
            dict_get k (dict_set "log_level" (JStr l) log) = dict_get k log.
Proof.
  intros Hm Hj Hf Hfmt Hl Hin.
  split; [|split; [apply dict_get_set_eq | intros k Hk; now apply dict_get_set_neq]].
  unfold _parse_to_json, _parse_to_json_try, dict_getitem.
  rewrite Hm. simpl. rewrite Hj. simpl. rewrite Hf. simpl. rewrite Hfmt.
  unfold py_contains, dict_mem, bind. rewrite Hl.
  unfold py_getitem, dict_getitem. rewrite Hl. simpl. now rewrite Hin.
Qed.

Lemma parse_to_json_unstructured (env : environ) (log log' : dict) :
  structured env = false ->
  _parse_to_json env log = Ok log' ->
  log' = log \/
  exists l, log' = dict_set "log_level" (JStr l) log
            /\ str_in (str_lower l) LOG_LEVELS = true.
Proof.
  unfold structured, _parse_to_json, _parse_to_json_try, dict_getitem.
  intros Hs H.
  destruct (dict_get "message" log) as [v|]; simpl in H;
    [|injection H as <-; now left].
  destruct (py_json_loads v) as [j|e]; simpl in H;
    [|destruct (is_KeyError e || is_ValueError e); [injection H as <-; now left
                                                    | discriminate]].
  destruct (dict_get "FORMAT" env) as [fmt|]; simpl in H;
    [|injection H as <-; now left].
  rewrite Hs in H.
  destruct (py_contains "level" j) as [[|]|e]; simpl in H;
    [ | injection H as <-; now left
      | destruct (is_KeyError e || is_ValueError e); [injection H as <-; now left
                                                      | discriminate] ].
  destruct (py_getitem j "level") as [lv|e]; simpl in H;
    [|destruct (is_KeyError e || is_ValueError e); [injection H as <-; now left
                                                    | discriminate]].
  destruct lv as [| | | |l| |]; simpl in H; try discriminate.
  destruct (str_in (str_lower l) LOG_LEVELS) eqn:Hin; injection H as <-; eauto.
Qed.

(** X7.  Outside structured mode (FORMAT unset or not "json") the step
    returns either the record it was given or that record with [log_level]
    set to a string that is a recognized severity once lower-cased; it
    never adds or changes any other field. *)
Theorem parse_to_json_level_only (env : environ) (log log' : dict) :
  structured env = false ->
  _parse_to_json env log = Ok log' ->
  (log' = log \/
   exists l, log' = dict_set "log_level" (JStr l) log
             /\ str_in (str_lower l) LOG_LEVELS = true) /\
  forall k, k <> "log_level" -> dict_get k log' = dict_get k log.
Proof.
  intros Hs H. pose proof (parse_to_json_unstructured env log log' Hs H) as Hc.
  split; [exact Hc|].
  intros k Hk. destruct Hc as [->|(l & -> & _)]; auto using dict_get_set_neq.
Qed.

(** X8.  Errors that the [except (KeyError, ValueError)] of [_parse_to_json]
    does not catch.  A message that is not a string raises [TypeError]; in
    structured mode a message that parses to anything but an object raises
    [AttributeError]; with FORMAT set otherwise, a message that parses to
    null, a boolean or a number raises [TypeError], and one that parses to
    an object whose [level] is not a string raises [AttributeError]. *)
Theorem parse_to_json_uncaught (env : environ) (log : dict) :
  (forall v, dict_get "message" log = Some v -> (forall s, v <> JStr s) ->
             _parse_to_json env log = Err TypeError) /\
  (forall m j, dict_get "message" log = Some (JStr m) ->
               json_loads m = Some j ->
               structured env = true -> (forall d, j <> JObj d) ->
               _parse_to_json env log = Err AttributeError) /\
  (forall m j fmt, dict_get "message" log = Some (JStr m) ->
                   json_loads m = Some j ->
                   dict_get "FORMAT" env = Some fmt ->
                   String.eqb (str_lower fmt) "json" = false ->
                   (forall s, j <> JStr s) -> (forall a, j <> JArr a) ->
                   (forall d, j <> JObj d) ->
                   _parse_to_json env log = Err TypeError) /\
  (forall m d fmt v, dict_get "message" log = Some (JStr m) ->
                     json_loads m = Some (JObj d) ->
                     dict_get "FORMAT" env = Some fmt ->
                     String.eqb (str_lower fmt) "json" = false ->
                     dict_get "level" d = Some v -> (forall s, v <> JStr s) ->
                     _parse_to_json env log = Err AttributeError).
Proof.
  unfold _parse_to_json, _parse_to_json_try, dict_getitem.
  split; [|split; [|split]].
  - intros v Hm Hv. rewrite Hm. simpl.
    destruct v; try reflexivity. now elim (Hv s).
  - intros m j Hm Hj Hs Hobj. destruct (structured_format env Hs) as (fmt & Hf & Hjson).
    rewrite Hm. simpl. rewrite Hj. simpl. rewrite Hf. simpl. rewrite Hjson.
    destruct j; try reflexivity. now elim (Hobj d).
  - intros m j fmt Hm Hj Hf Hfmt Hs Ha Hd.
    rewrite Hm. simpl. rewrite Hj. simpl. rewrite Hf. simpl. rewrite Hfmt.
    destruct j; try reflexivity;
      [now elim (Hs s) | now elim (Ha l) | now elim (Hd d)].
  - intros m d fmt v Hm Hj Hf Hfmt Hl Hv.
    rewrite Hm. simpl. rewrite Hj. simpl. rewrite Hf. simpl. rewrite Hfmt.
    unfold py_contains, dict_mem, bind. rewrite Hl.
    unfold py_getitem, dict_getitem. rewrite Hl.
    destruct v; try reflexivity. now elim (Hv s).
Qed.

(** ** The severity filter, continued *)

Lemma ignored_level_passes (k : string) (log : dict) :
  ignored_level k log = Ok false <-> passes_severity k log.
Proof.
  unfold ignored_level, passes_severity.
  destruct (dict_get k log) as [v|]; [|split; auto].
  destruct v as [| | | |s| |]; simpl;
    try (split; [discriminate | intros [H|(s0 & H & _)]; discriminate]).
  destruct (str_in (str_lower s) LOG_LEVELS_IGNORE) eqn:Hin; split.
  - discriminate.
  - intros [H|(s0 & [= <-] & H)]; congruence.
  - intros _. right. eauto.
  - reflexivity.
Qed.

Lemma parse_cloudwatch_log_kept (env : environ) (log additional_data log' : dict) :
  _parse_cloudwatch_log env log additional_data = Ok (true, log') ->
  severity_filter log' = Ok true /\
  exists l, merge_and_expand env additional_data l = Ok log'.
Proof.
  rewrite parse_cloudwatch_log_normalize.
  destruct (normalize env log additional_data) as [[alive l]|] eqn:Hn;
    simpl; [|discriminate].
  destruct alive; [|discriminate].
  destruct (severity_filter l) as [keep|] eqn:Hf; simpl; [|discriminate].
  intros [= -> ->]. split; auto.
  unfold normalize in Hn.
  destruct (_add_timestamp log) as [l1|]; simpl in Hn; [|discriminate].
  destruct (_add_level l1) as [l2|]; simpl in Hn; [|discriminate].
  destruct (dict_getitem additional_data "logGroup") as [g|]; simpl in Hn;
    [|discriminate].
  destruct (py_contains LAMBDA_LOG_GROUP g) as [[|]|]; simpl in Hn;
    [ | | discriminate].
  - destruct (_is_valid_log l2) as [[|]|]; simpl in Hn; try discriminate.
    destruct (_extract_lambda_log_message l2) as [l3|]; simpl in Hn;
      [|discriminate].
    destruct (merge_and_expand env additional_data l3) eqn:Hm; simpl in Hn;
      [|discriminate].
    injection Hn as <-. eauto.
  - destruct (merge_and_expand env additional_data l2) eqn:Hm; simpl in Hn;
      [|discriminate].
    injection Hn as <-. eauto.
Qed.

(** X9.  The severity tests return [True] exactly when each of [log_level]
    and [level] is absent or is a string that, lower-cased, is not on the
    ignore list; so every record that [_parse_cloudwatch_log] keeps has
    both fields in that state. *)
Theorem severity_filter_keeps :
  (forall log : dict,
      severity_filter log = Ok true <->
      passes_severity "log_level" log /\ passes_severity "level" log) /\
  (forall (env : environ) (log additional_data log' : dict),
      _parse_cloudwatch_log env log additional_data = Ok (true, log') ->
      passes_severity "log_level" log' /\ passes_severity "level" log').
Proof.
  assert (Hiff : forall log : dict,
             severity_filter log = Ok true <->
             passes_severity "log_level" log /\ passes_severity "level" log).
  { intros log. rewrite <- !ignored_level_passes. unfold severity_filter.
    destruct (ignored_level "log_level" log) as [[|]|]; simpl;
      try (split; [discriminate | intros [H _]; discriminate]).
    destruct (ignored_level "level" log) as [[|]|]; simpl;
      try (split; [discriminate | intros [_ H]; discriminate]).
    split; auto. }
  split; [exact Hiff|].
  intros env log additional_data log' H.
  apply Hiff. now destruct (parse_cloudwatch_log_kept _ _ _ _ H).
Qed.

(** X10.  Outside structured mode every kept record carries the batch
    metadata: each field of [additional_data] other than [log_level] is in
    the record with the metadata's value, whatever the entry held under
    that name. *)
Theorem kept_record_carries_metadata (env : environ)
    (log additional_data log' : dict) :
  NoDup (keys additional_data) ->
  structured env = false ->
  _parse_cloudwatch_log env log additional_data = Ok (true, log') ->
  forall k v, dict_get k additional_data = Some v -> k <> "log_level" ->
              dict_get k log' = Some v.
Proof.
  intros Hnd Hs H k v Hk Hne.
  destruct (parse_cloudwatch_log_kept _ _ _ _ H) as (_ & l & Hm).
  unfold merge_and_expand in Hm.
  destruct (parse_to_json_unstructured _ _ _ Hs Hm) as [->|(lv & -> & _)].
  - rewrite dict_get_update by assumption. now rewrite Hk.
  - rewrite dict_get_set_neq by assumption.
    rewrite dict_get_update by assumption. now rewrite Hk.
Qed.

(** ** Level inference and entries without the fields it reads *)

(** X11.  Level inference leaves a record that has a [level] as it is; for a
    record without [level] whose message is a string it sets [level] to
    "error" exactly when the message contains "Task timed out after", and
    touches no other field. *)
Theorem add_level_timeout (log : dict) :
  (dict_mem "level" log = true -> _add_level log = Ok log) /\
  (forall m,
      dict_mem "level" log = false ->
      dict_get "message" log = Some (JStr m) ->
      exists log',
        _add_level log = Ok log' /\
        dict_get "level" log'
        = (if str_contains "Task timed out after" m
           then Some (JStr "error") else None) /\
        forall k, k <> "level" -> dict_get k log' = dict_get k log).
Proof.
  unfold _add_level. split.
  - intros H. now rewrite H.
  - intros m Hl Hm. rewrite Hl. simpl. unfold dict_getitem. rewrite Hm. simpl.
    apply dict_mem_false in Hl.
    destruct (str_contains "Task timed out after" m); eexists;
      (split; [reflexivity|]); split; auto using dict_get_set_eq.
    intros k Hk. now apply dict_get_set_neq.
Qed.

(** X12.  An entry with neither [@timestamp] nor [timestamp], and an entry
    with a timestamp but neither [level] nor [message], make
    [_parse_cloudwatch_log] raise [KeyError]; the loop stops there, with
    the calls made so far and no further one. *)
Theorem entry_without_required_fields (env : environ)
    (log additional_data : dict) :
  (dict_mem "@timestamp" log = false /\ dict_mem "timestamp" log = false) \/
  ((dict_mem "@timestamp" log = true \/ dict_mem "timestamp" log = true) /\
   dict_mem "level" log = false /\ dict_mem "message" log = false) ->
  _parse_cloudwatch_log env log additional_data = Err KeyError /\
  forall rest shipper,
    process_logs env additional_data (JObj log :: rest) shipper
    = (shipper, Err KeyError).
Proof.
  intros H.
  assert (Hp : _parse_cloudwatch_log env log additional_data = Err KeyError).
  { unfold _parse_cloudwatch_log.
    destruct H as [(Hat & Hts)|(Hts & Hl & Hm)].
    - unfold _add_timestamp. rewrite Hat. simpl.
      apply dict_mem_false in Hts. unfold dict_getitem. now rewrite Hts.
    - destruct (add_timestamp_frame log Hts) as (log1 & H1 & F1).
      rewrite H1. simpl. unfold _add_level, dict_mem, dict_getitem.
      apply dict_mem_false in Hl, Hm.
      rewrite !F1 by (intro; discriminate). now rewrite Hl, Hm. }
  split; [exact Hp|].
  intros rest shipper. simpl. now rewrite Hp.
Qed.

(** X13.  The runtime-line step raises [KeyError] on a record without
    [message], and otherwise changes no field other than [@timestamp],
    [requestID], [message] and [log_level]. *)
Theorem extract_lambda_log_message_frame (log : dict) :
  (dict_get "message" log = None ->
   _extract_lambda_log_message log = Err KeyError) /\
  (forall log',
      _extract_lambda_log_message log = Ok log' ->
      forall k, k <> "@timestamp" -> k <> "requestID" -> k <> "message" ->
                k <> "log_level" ->
                dict_get k log' = dict_get k log).
Proof.
  unfold _extract_lambda_log_message, dict_getitem. split.
  - intros H. now rewrite H.
  - intros log'. destruct (dict_get "message" log) as [m|]; simpl; [|discriminate].
    intros [= <-] k H1 H2 H3 H4.
    repeat match goal with
           | |- context [if ?b then _ else _] => destruct b
           end;
      repeat rewrite dict_get_set_neq by assumption; reflexivity.
Qed.

(** ** Splitting *)

Lemma split_on_no_sep (c : ascii) (s : string) :
  str_has c s = false -> split_on c s = [s].
Proof.
  induction s as [|a r IH]; simpl; auto.
  destruct (Ascii.eqb a c); simpl; [discriminate|].
  intros H. now rewrite IH.
Qed.

Lemma split_on_app_sep (c : ascii) (a b : string) :
  str_has c a = false ->
  split_on c (a ++ String c b) = a :: split_on c b.
Proof.
  induction a as [|x r IH]; simpl.
  - intros _. now rewrite Ascii.eqb_refl.
  - destruct (Ascii.eqb x c); simpl; [discriminate|].
    intros H. now rewrite IH.
Qed.

Lemma split_on_has_sep (c : ascii) (s : string) :
  str_has c s = true -> exists a b r, split_on c s = a :: b :: r.
Proof.
  induction s as [|x r IH]; simpl; [discriminate|].
  destruct (Ascii.eqb x c); simpl.
  - intros _. destruct (split_on c r) as [|h t] eqn:E; eauto.
    destruct r; simpl in E; [discriminate|].
    destruct (Ascii.eqb a c); [discriminate|].
    destruct (split_on c r); discriminate.
  - intros H. destruct (IH H) as (a & b & t & ->). eauto.
Qed.

Lemma split_on_concat (c : ascii) (parts : list string) :
  parts <> [] ->
  Forall (fun p => str_has c p = false) parts ->
  split_on c (String.concat (String c EmptyString) parts) = parts.
Proof.
  intros Hne Hall. induction Hall as [|p r Hp Hr IH]; [congruence|].
  destruct r as [|q r'].
  - simpl. now apply split_on_no_sep.
  - change (String.concat (String c EmptyString) (p :: q :: r'))
      with (p ++ String c (String.concat (String c EmptyString) (q :: r'))).
    rewrite split_on_app_sep by assumption.
    f_equal. apply IH. discriminate.
Qed.

(** X14.  The parts that [split] yields are never an empty list, none of them
    holds the separator, and joined by the separator they give the string
    back; splitting a join of separator-free parts gives the parts back. *)
Theorem split_on_round_trip (c : ascii) :
  (forall s,
      split_on c s <> [] /\
      Forall (fun p => str_has c p = false) (split_on c s) /\
      String.concat (String c EmptyString) (split_on c s) = s) /\
  (forall parts,
      parts <> [] -> Forall (fun p => str_has c p = false) parts ->
      split_on c (String.concat (String c EmptyString) parts) = parts).
Proof.
  split; [|apply split_on_concat].
  induction s as [|a r (Hne & Hall & Hcat)]; simpl.
  - repeat split; [discriminate | now repeat constructor].
  - destruct (Ascii.eqb_spec a c) as [->|Hac].
    + repeat split; [discriminate | now constructor |].
      destruct (split_on c r) as [|h t]; [congruence|].
      simpl in *. now rewrite Hcat.
    + destruct (split_on c r) as [|h t]; [congruence|].
      repeat split; [discriminate | |].
      * inversion Hall; subst. constructor; auto. simpl.
        apply Ascii.eqb_neq in Hac. now rewrite Hac.
      * destruct t; simpl in *; now rewrite <- Hcat.
Qed.

(** ** The context enricher, continued *)

Lemma copy_fields_missing (p : dict) (fields : list string) :
  (exists k, In k fields /\ dict_get k p = None) ->
  forall acc, copy_fields (JObj p) fields acc = Err KeyError.
Proof.
  intros (k & Hin & Hk).
  induction fields as [|f r IH]; intros acc; [destruct Hin|].
  simpl. unfold dict_getitem.
  destruct (dict_get f p) as [v|] eqn:Hf; simpl; auto.
  destruct Hin as [->|Hin]; [congruence | auto].
Qed.

(** X15.  A decoded payload that is not a mapping makes the enricher raise
    [TypeError], and a mapping that lacks one of [logGroup], [logStream],
    [messageType], [owner] makes it raise [KeyError]; either way the
    handler ends with that error and no call on the Shipper. *)
Theorem payload_without_metadata_raises (env : environ)
    (event aws_logs_data : value) (context : LambdaContext) :
  _extract_aws_logs_data event = Ok aws_logs_data ->
  ((forall p, aws_logs_data <> JObj p) ->
   _get_additional_logs_data env aws_logs_data context = Err TypeError /\
   lambda_handler env event context = ([], Err TypeError)) /\
  (forall p k,
      aws_logs_data = JObj p ->
      In k ["logGroup"; "logStream"; "messageType"; "owner"] ->
      dict_get k p = None ->
      _get_additional_logs_data env aws_logs_data context = Err KeyError /\
      lambda_handler env event context = ([], Err KeyError)).
Proof.
  intros He.
  assert (Hh : forall e,
             _get_additional_logs_data env aws_logs_data context = Err e ->
             lambda_handler env event context = ([], Err e)).
  { intros e Ha. unfold lambda_handler, handler_setup.
    rewrite He. simpl bind. now rewrite Ha. }
  split.
  - intros Hp.
    assert (Ha : _get_additional_logs_data env aws_logs_data context
                 = Err TypeError).
    { unfold _get_additional_logs_data.
      destruct aws_logs_data; try reflexivity. now elim (Hp d). }
    auto.
  - intros p k -> Hin Hk.
    assert (Ha : _get_additional_logs_data env (JObj p) context = Err KeyError).
    { unfold _get_additional_logs_data.
      rewrite (copy_fields_missing p); eauto. }
    auto.
Qed.

Lemma enrich_properties_malformed (props : list string) :
  (exists p, In p props /\ str_has "=" p = false) ->
  forall additional_data,
    enrich_properties props additional_data = Err IndexError.
Proof.
  intros (p & Hin & Hp).
  induction props as [|q r IH]; intros additional_data; [destruct Hin|].
  simpl. destruct (str_has "=" q) eqn:Hq.
  - destruct (split_on_has_sep _ _ Hq) as (a & b & t & ->).
    destruct Hin as [->|Hin]; [congruence | auto].
  - now rewrite split_on_no_sep.
Qed.

Lemma enrich_properties_pairs (pairs : list (string * string)) :
  Forall (fun kv => str_has "=" (fst kv) = false
                    /\ str_has "=" (snd kv) = false) pairs ->
  forall additional_data,
    enrich_properties (map (fun kv => fst kv ++ "=" ++ snd kv) pairs)
      additional_data
    = Ok (dict_update additional_data (enrich_fields pairs)).
Proof.
  intros Hall.
  induction Hall as [|[k v] r (Hk & Hv) Hr IH]; intros additional_data; simpl; auto.
  simpl in Hk, Hv.
  change (k ++ String "=" v) with (k ++ String "="%char v).
  rewrite split_on_app_sep by assumption.
  rewrite split_on_no_sep by assumption.
  now rewrite IH.
Qed.

Lemma str_has_app (c : ascii) (a b : string) :
  str_has c (a ++ b) = str_has c a || str_has c b.
Proof.
  induction a as [|x r IH]; simpl; auto.
  rewrite IH. now rewrite orb_assoc.
Qed.

Lemma split_on_trailing (c : ascii) (s : string) :
  exists pre, pre <> []
              /\ split_on c (s ++ String c EmptyString) = (pre ++ [EmptyString])%list.
Proof.
  induction s as [|a r (pre & Hne & IH)]; simpl.
  - rewrite Ascii.eqb_refl. exists [EmptyString]. split; [discriminate | reflexivity].
  - rewrite IH. destruct (Ascii.eqb a c).
    + exists (EmptyString :: pre). split; [discriminate | reflexivity].
    + destruct pre as [|h t]; [congruence|]. simpl.
      exists (String a h :: t). split; [discriminate | reflexivity].
Qed.

Lemma bind_Ok_inv {A B} (m : result A) (k : A -> result B) (r : B) :
  bind m k = Ok r -> exists a, m = Ok a /\ k a = Ok r.
Proof.
  destruct m as [a|e]; simpl; [eauto | discriminate].
Qed.

(** X16.  Whenever the enricher returns, [type] holds the TYPE variable's
    value if it is set and "logzio_cloudwatch_lambda" otherwise; an ENRICH
    pair named [type] does not change that. *)
Theorem additional_data_type_tag (env : environ) (aws_logs_data : value)
    (context : LambdaContext) (additional_data : dict) :
  _get_additional_logs_data env aws_logs_data context = Ok additional_data ->
  dict_get "type" additional_data = Some (type_tag env).
Proof.
  unfold _get_additional_logs_data. intros H.
  apply bind_Ok_inv in H as (a0 & _ & H).
  apply bind_Ok_inv in H as (a1 & _ & H).
  apply bind_Ok_inv in H as (a2 & _ & H).
  unfold type_tag, dict_getitem in *.
  destruct (dict_get "TYPE" env); simpl in H; injection H as <-;
    apply dict_get_set_eq.
Qed.

(** X17.  With ENRICH unset or empty, a payload that has the four metadata
    fields and a context that has both attributes give exactly these seven
    fields, in this order: [logGroup], [logStream], [messageType], [owner]
    (the payload's values), [function_version], [invoked_function_arn] (the
    context's) and [type]. *)
Theorem additional_data_without_enrich (env : environ) (p : dict)
    (group stream mtype owner fv arn : value) :
  dict_get "logGroup" p = Some group ->
  dict_get "logStream" p = Some stream ->
  dict_get "messageType" p = Some mtype ->
  dict_get "owner" p = Some owner ->
  dict_get "ENRICH" env = None \/ dict_get "ENRICH" env = Some EmptyString ->
  _get_additional_logs_data env (JObj p)
    {| function_version := Some fv; invoked_function_arn := Some arn |}
  = Ok (base_additional_data group stream mtype owner fv arn
        ++ [("type", type_tag env)])%list.
Proof.
  intros Hg Hs Hm Ho He.
  unfold _get_additional_logs_data, type_tag. simpl.
  unfold dict_getitem. rewrite Hg. simpl. rewrite Hs. simpl.
  rewrite Hm. simpl. rewrite Ho. simpl.
  destruct He as [He|He]; rewrite He; simpl;
    destruct (dict_get "TYPE" env); reflexivity.
Qed.

(** X18.  A non-empty ENRICH in which some semicolon-separated piece has no
    "=" makes the enricher raise [IndexError], which nothing catches; an
    ENRICH that ends with a semicolon is such a text. *)
Theorem enrich_malformed_raises (env : environ) (aws_logs_data : value)
    (context : LambdaContext) (fields : dict) (fv arn : value)
    (enrich : string) :
  copy_fields aws_logs_data ["logGroup"; "logStream"; "messageType"; "owner"] []
  = Ok fields ->
  function_version context = Some fv ->
  invoked_function_arn context = Some arn ->
  dict_get "ENRICH" env = Some enrich ->
  (enrich <> EmptyString /\
   exists piece, In piece (split_on ";" enrich) /\ str_has "=" piece = false) \/
  (exists e, enrich = e ++ ";") ->
  _get_additional_logs_data env aws_logs_data context = Err IndexError.
Proof.
  intros Hc Hfv Harn He Hbad.
  assert (Hne : enrich <> EmptyString /\
                exists piece, In piece (split_on ";" enrich)
                              /\ str_has "=" piece = false).
  { destruct Hbad as [H|(e & ->)]; auto. split.
    - destruct e; discriminate.
    - exists EmptyString. split; [|reflexivity].
      destruct (split_on_trailing ";" e) as (pre & _ & Hsplit).
      change (e ++ ";") with (e ++ String ";"%char EmptyString).
      rewrite Hsplit. apply in_or_app. right. now left. }
  destruct Hne as (Hne & Hpiece).
  unfold _get_additional_logs_data. rewrite Hc. simpl bind.
  rewrite Hfv, Harn. simpl.
  unfold dict_getitem. rewrite He. simpl.
  destruct enrich as [|a r]; [congruence|].
  now rewrite (enrich_properties_malformed _ Hpiece).
Qed.

(** X19.  An ENRICH text made of pairs [k=v] joined by semicolons, with no
    semicolon and no "=" inside the keys and values, is read back pair by
    pair: the enricher assigns each value to its key, in order, over the
    payload and context fields and before [type]; with distinct keys every
    pair's key other than [type] ends with its value. *)
Theorem enrich_pairs_added (env : environ) (aws_logs_data : value)
    (context : LambdaContext) (fields : dict) (fv arn : value)
    (pairs : list (string * string)) :
  copy_fields aws_logs_data ["logGroup"; "logStream"; "messageType"; "owner"] []
  = Ok fields ->
  function_version context = Some fv ->
  invoked_function_arn context = Some arn ->
  pairs <> [] ->
  Forall (fun kv => enrich_plain (fst kv) /\ enrich_plain (snd kv)) pairs ->
  dict_get "ENRICH" env = Some (enrich_text pairs) ->
  exists additional_data,
    _get_additional_logs_data env aws_logs_data context = Ok additional_data /\
    additional_data
    = dict_set "type" (type_tag env)
        (dict_update
           (dict_set "invoked_function_arn" arn
              (dict_set "function_version" fv fields))
           (enrich_fields pairs)) /\
    (NoDup (map fst pairs) ->
     forall k v, In (k, v) pairs -> k <> "type" ->
                 dict_get k additional_data = Some (JStr v)).
Proof.
  intros Hc Hfv Harn Hne Hplain He.
  assert (Hsplit : split_on ";" (enrich_text pairs)
                   = map (fun kv => fst kv ++ "=" ++ snd kv) pairs).
  { unfold enrich_text.
    apply split_on_concat.
    - destruct pairs; [congruence | discriminate].
    - rewrite Forall_map. eapply Forall_impl; [|exact Hplain].
      intros [k v] ((Hk & _) & (Hv & _)). simpl in *.
      rewrite str_has_app, Hk. simpl. exact Hv. }
  assert (Heq : Forall (fun kv => str_has "=" (fst kv) = false
                                  /\ str_has "=" (snd kv) = false) pairs).
  { eapply Forall_impl; [|exact Hplain]. intros kv ((_ & Hk) & (_ & Hv)). auto. }
  assert (Hrun : _get_additional_logs_data env aws_logs_data context
                 = Ok (dict_set "type" (type_tag env)
                         (dict_update
                            (dict_set "invoked_function_arn" arn
                               (dict_set "function_version" fv fields))
                            (enrich_fields pairs)))).
  { unfold _get_additional_logs_data. rewrite Hc. simpl bind.
    rewrite Hfv, Harn. simpl.
    unfold dict_getitem at 1. rewrite He. simpl bind.
    destruct (enrich_text pairs) as [|a r] eqn:Htext.
    - exfalso. destruct pairs as [|[k v] rest]; [congruence|].
      simpl in Hsplit. injection Hsplit as Hhead _.
      destruct k; discriminate.
    - rewrite Hsplit, (enrich_properties_pairs pairs Heq). simpl.
      unfold type_tag, dict_getitem.
      destruct (dict_get "TYPE" env); reflexivity. }
  eexists. split; [exact Hrun|]. split; [reflexivity|].
  intros Hnd k v Hin Hk.
  rewrite dict_get_set_neq by assumption.
  assert (Hkeys : keys (enrich_fields pairs) = map fst pairs).
  { unfold keys, enrich_fields. rewrite map_map. reflexivity. }
  rewrite dict_get_update by (rewrite Hkeys; exact Hnd).
  rewrite (In_dict_get k (JStr v) (enrich_fields pairs)); auto.
  - rewrite Hkeys. exact Hnd.
  - unfold enrich_fields.
    change (k, JStr v) with ((fun kv : string * string => (fst kv, JStr (snd kv))) (k, v)).
    now apply in_map.
Qed.

(** ** The handler's loop, continued *)

Lemma process_logs_app (env : environ) (additional_data : dict)
    (l1 l2 : list value) :
  forall shipper,
    process_logs env additional_data (l1 ++ l2)%list shipper
    = match process_logs env additional_data l1 shipper with
      | (shipper1, Ok _) => process_logs env additional_data l2 shipper1
      | failed => failed
      end.
Proof.
  induction l1 as [|entry rest IH]; intros shipper; simpl; auto.
  destruct entry; auto.
  destruct (_parse_cloudwatch_log env d additional_data) as [[[|] l]|]; auto.
  destruct (flatten_object l); auto.
Qed.

Lemma process_logs_failure (env : environ) (additional_data : dict)
    (logs : list value) :
  forall shipper shipper' e,
    process_logs env additional_data logs shipper = (shipper', Err e) ->
    exists pre entry post,
      logs = (pre ++ entry :: post)%list /\
      process_logs env additional_data pre shipper = (shipper', Ok tt) /\
      process_logs env additional_data [entry] [] = ([], Err e).
Proof.
  induction logs as [|entry rest IH]; intros shipper shipper' e H;
    [discriminate|].
  assert (Hhere : process_logs env additional_data [entry] [] = ([], Err e) ->
                  shipper' = shipper ->
                  exists pre entry0 post,
                    (entry :: rest = pre ++ entry0 :: post)%list /\
                    process_logs env additional_data pre shipper
                    = (shipper', Ok tt) /\
                    process_logs env additional_data [entry0] [] = ([], Err e)).
  { intros H1 ->. exists [], entry, rest. auto. }
  assert (Hlater : forall shipper1,
             process_logs env additional_data [entry] shipper
             = (shipper1, Ok tt) ->
             process_logs env additional_data rest shipper1 = (shipper', Err e) ->
             exists pre entry0 post,
               (entry :: rest = pre ++ entry0 :: post)%list /\
               process_logs env additional_data pre shipper
               = (shipper', Ok tt) /\
               process_logs env additional_data [entry0] [] = ([], Err e)).
  { intros shipper1 H1 H2.
    destruct (IH _ _ _ H2) as (pre & entry0 & post & -> & Hpre & Hfail).
    exists (entry :: pre), entry0, post. repeat split; auto.
    change (entry :: pre) with ([entry] ++ pre)%list.
    now rewrite process_logs_app, H1. }
  simpl in H, Hhere, Hlater.
  destruct entry; try (injection H as <- <-; now apply Hhere).
  destruct (_parse_cloudwatch_log env d additional_data) as [[[|] l]|e0].
  - destruct (flatten_object l) as [f|e0].
    + now apply (Hlater (shipper ++ [Add f])%list).
    + injection H as <- <-. now apply Hhere.
  - now apply (Hlater shipper).
  - injection H as <- <-. now apply Hhere.
Qed.

(** X20.  When [lambda_handler] ends with an exception, [flush] has not been
    called.  Either the fault came before the loop and the Shipper got no
    call at all, or the loop stopped at one entry: the kept records of the
    entries before it have been added, in order, that entry and the ones
    after it have not. *)
Theorem failed_batch_partial_send (env : environ) (event : value)
    (context : LambdaContext) (shipper : list call) (e : exn) :
  lambda_handler env event context = (shipper, Err e) ->
  ~ In Flush shipper /\
  ((handler_setup env event context = Err e /\ shipper = []) \/
   exists additional_data pre entry post,
     handler_setup env event context
     = Ok (additional_data, (pre ++ entry :: post)%list) /\
     shipper = map Add (kept_records env additional_data pre) /\
     process_logs env additional_data [entry] [] = ([], Err e)).
Proof.
  unfold lambda_handler. intros H.
  destruct (handler_setup env event context) as [[additional_data logs]|e0].
  - destruct (process_logs env additional_data logs []) as [sh [[]|e1]] eqn:Hp;
      [discriminate|].
    injection H as <- <-.
    destruct (process_logs_failure _ _ _ _ _ _ Hp)
      as (pre & entry & post & -> & Hpre & Hfail).
    apply process_logs_trace in Hpre. simpl in Hpre. subst sh.
    split.
    + rewrite in_map_iff. intros (x & Hx & _). discriminate.
    + right. exists additional_data, pre, entry, post. auto.
  - injection H as <- <-. split; [intros [] | left; auto].
Qed.

(** X21.  A batch entry that is not a mapping stops the loop with
    [TypeError]: the calls made for the entries before it stand, and the
    entries after it are not looked at. *)
Theorem non_mapping_entry_aborts (env : environ) (additional_data : dict)
    (pre post : list value) (entry : value) (shipper shipper' : list call) :
  (forall log, entry <> JObj log) ->
  process_logs env additional_data pre shipper = (shipper', Ok tt) ->
  process_logs env additional_data (pre ++ entry :: post)%list shipper
  = (shipper', Err TypeError) /\
  shipper' = (shipper ++ map Add (kept_records env additional_data pre))%list.
Proof.
  intros Hentry Hpre. split; [|now apply process_logs_trace].
  rewrite process_logs_app, Hpre. simpl.
  destruct entry; try reflexivity. now elim (Hentry d).
Qed.

(** ** The decoder, continued *)

(** X22.  The decoder returns the document that [json.loads] reads from the
    unzipped, base64-decoded [data]; an envelope without [awslogs] or
    without [data] raises [KeyError] and a [data] that is not a string
    raises [TypeError], neither turned into [ValueError]; and whenever the
    decoder raises an error of the [ValueError] family it is the plain
    [ValueError] it builds itself. *)
Theorem extract_aws_logs_data_outcomes (event : value) :
  (forall awslogs s b u doc,
      py_getitem event "awslogs" = Ok awslogs ->
      py_getitem awslogs "data" = Ok (JStr s) ->
      b64decode s = Some b -> gunzip b = Ok u -> json_loads u = Some doc ->
      _extract_aws_logs_data event = Ok doc) /\
  (forall d, event = JObj d -> dict_get "awslogs" d = None ->
             _extract_aws_logs_data event = Err KeyError) /\
  (forall d a, event = JObj d -> dict_get "awslogs" d = Some (JObj a) ->
               dict_get "data" a = None ->
               _extract_aws_logs_data event = Err KeyError) /\
  (forall awslogs v,
      py_getitem event "awslogs" = Ok awslogs ->
      py_getitem awslogs "data" = Ok v -> (forall s, v <> JStr s) ->
      _extract_aws_logs_data event = Err TypeError) /\
  (forall e, _extract_aws_logs_data event = Err e ->
             is_ValueError e = true -> e = ValueError).
Proof.
  unfold _extract_aws_logs_data. repeat split.
  - intros awslogs s b u doc Ha Hd Hb Hg Hj.
    rewrite Ha. simpl. rewrite Hd. simpl. rewrite Hb, Hg. simpl. now rewrite Hj.
  - intros d -> Ha. simpl. unfold dict_getitem. now rewrite Ha.
  - intros d a -> Ha Hd. simpl. unfold dict_getitem. rewrite Ha. simpl.
    unfold dict_getitem. now rewrite Hd.
  - intros awslogs v Ha Hd Hv. rewrite Ha. simpl. rewrite Hd. simpl.
    destruct v; try reflexivity. now elim (Hv s).
  - intros e H He.
    destruct (py_getitem event "awslogs") as [awslogs|e0] eqn:Ha; simpl in H.
    + destruct (py_getitem awslogs "data") as [v|e1] eqn:Hd; simpl in H.
      * match type of H with
        | match ?body with _ => _ end = _ => destruct body as [doc|e2]
        end; [discriminate|].
        destruct (is_ValueError e2) eqn:E2; injection H as <-; congruence.
      * injection H as <-.
        destruct awslogs; simpl in Hd; try (injection Hd as <-; discriminate).
        unfold dict_getitem in Hd. destruct (dict_get "data" d); [discriminate|].
        injection Hd as <-. discriminate.
    + injection H as <-.
      destruct event; simpl in Ha; try (injection Ha as <-; discriminate).
      unfold dict_getitem in Ha. destruct (dict_get "awslogs" d); [discriminate|].
      injection Ha as <-. discriminate.
Qed.

(** ** Entries outside a managed-function log group *)

(** X23.  When the batch's [logGroup] does not contain "/aws/lambda/", the
    runtime-line step does not run: outside structured mode, and unless
    the metadata itself has a [message] field, whatever record
    [_parse_cloudwatch_log] returns still has the entry's message text,
    tabs and housekeeping markers included, and gets no field from it. *)
Theorem other_log_group_message_untouched (env : environ)
    (log additional_data : dict) (m : string) (group : value)
    (keep : bool) (log' : dict) :
  dict_get "message" log = Some (JStr m) ->
  dict_mem "@timestamp" log = true \/ dict_mem "timestamp" log = true ->
  dict_get "logGroup" additional_data = Some group ->
  py_contains LAMBDA_LOG_GROUP group = Ok false ->
  NoDup (keys additional_data) ->
  dict_get "message" additional_data = None ->
  structured env = false ->
  _parse_cloudwatch_log env log additional_data = Ok (keep, log') ->
  dict_get "message" log' = Some (JStr m) /\
  dict_get "requestID" log'
  = match dict_get "requestID" additional_data with
    | Some v => Some v
    | None => dict_get "requestID" log
    end.
Proof.
  intros Hm Hts Hg Hin Hnd Hmsg Hs H.
  destruct (add_timestamp_frame log Hts) as (log1 & H1 & F1).
  assert (Hm1 : dict_get "message" log1 = Some (JStr m))
    by (rewrite F1; [assumption | intro; discriminate | intro; discriminate]).
  destruct (add_level_frame log1 m Hm1) as (log2 & H2 & F2).
  unfold _parse_cloudwatch_log in H. rewrite H1 in H. simpl in H.
  rewrite H2 in H. simpl in H.
  unfold dict_getitem in H at 1. rewrite Hg in H. simpl in H.
  rewrite Hin in H. simpl in H.
  apply bind_Ok_inv in H as (l & Hl & H).
  apply bind_Ok_inv in H as (b & _ & H). injection H as _ ->.
  unfold merge_and_expand in Hl.
  assert (Hframe : forall k, k <> "log_level" ->
                             dict_get k log' = dict_get k (dict_update log2 additional_data)).
  { intros k Hk.
    destruct (parse_to_json_unstructured _ _ _ Hs Hl) as [->|(lv & -> & _)]; auto.
    now apply dict_get_set_neq. }
  split.
  - rewrite Hframe by (intro; discriminate).
    rewrite dict_get_update by assumption. rewrite Hmsg.
    rewrite F2 by (intro; discriminate). exact Hm1.
  - rewrite Hframe by (intro; discriminate).
    rewrite dict_get_update by assumption.
    destruct (dict_get "requestID" additional_data); auto.
    rewrite F2 by (intro; discriminate).
    apply F1; intro; discriminate.
Qed.

(** ** The shape of [logEvents] *)

(** X24.  Once the payload is decoded and the metadata built, a payload
    without [logEvents] ends the handler with [KeyError] and a [logEvents]
    that is null, a boolean or a number with [TypeError], with no call on
    the Shipper; an empty list, mapping or string gives [flush] alone; and
    a mapping or string that is not empty is iterated and stops at its
    first element with [TypeError], again with no call. *)
Theorem log_events_shapes (env : environ) (event : value)
    (context : LambdaContext) (p additional_data : dict) :
  _extract_aws_logs_data event = Ok (JObj p) ->
  _get_additional_logs_data env (JObj p) context = Ok additional_data ->
  (dict_get "logEvents" p = None ->
   lambda_handler env event context = ([], Err KeyError)) /\
  (forall v, dict_get "logEvents" p = Some v ->
             (forall s, v <> JStr s) -> (forall l, v <> JArr l) ->
             (forall d, v <> JObj d) ->
             lambda_handler env event context = ([], Err TypeError)) /\
  (dict_get "logEvents" p = Some (JArr []) \/
   dict_get "logEvents" p = Some (JObj []) \/
   dict_get "logEvents" p = Some (JStr EmptyString) ->
   lambda_handler env event context = ([Flush], Ok tt)) /\
  (forall v, dict_get "logEvents" p = Some v ->
             (exists kv d, v = JObj (kv :: d)) \/
             (exists c s, v = JStr (String c s)) ->
             lambda_handler env event context = ([], Err TypeError)).
Proof.
  intros He Ha.
  unfold lambda_handler, handler_setup. rewrite He. simpl bind.
  rewrite Ha. simpl bind. unfold dict_getitem.
  repeat split.
  - intros H. now rewrite H.
  - intros v H Hs Hl Hd. rewrite H. simpl.
    destruct v; try reflexivity;
      [now elim (Hs s) | now elim (Hl l) | now elim (Hd d)].
  - intros [H|[H|H]]; rewrite H; reflexivity.
  - intros v H [(kv & d & ->)|(c & s0 & ->)]; rewrite H; reflexivity.
Qed.

End Pipeline.

(** * The properties on the sample inputs *)

Lemma extract_lambda_log_message_parts_witness :
  (exists log',
      _extract_lambda_log_message sample_repr sample_lower python_entry = Ok log' /\
      dict_get "@timestamp" log' = Some (JStr "2024-01-01T00:00:02Z") /\
      dict_get "requestID" log' = Some (JStr "req-456") /\
      dict_get "message" log' = Some (JStr "plain text") /\
      dict_get "log_level" log' = None) /\
  (exists log',
      _extract_lambda_log_message sample_repr sample_lower accented_entry = Ok log' /\
      dict_get "log_level" log'
      = Some (JStr (String (ascii_of_nat 195) (String (ascii_of_nat 169) "rror"))) /\
      dict_get "message" log' = Some (JStr "disque plein")) /\
  (exists log',
      _extract_lambda_log_message sample_repr sample_lower info_entry = Ok log' /\
      dict_get "@timestamp" log' = Some (JStr "2024-01-01T00:00:00Z") /\
      dict_get "requestID" log' = Some (JStr "req-123") /\
      dict_get "log_level" log' = Some (JStr "info") /\
      dict_get "message" log' = Some (JStr "actual message")) /\
  (exists log3,
      _extract_lambda_log_message sample_repr sample_lower
        [("id", JStr "2"); ("message", JStr lambda_js_line);
         ("@timestamp", JStr "1704067201000")] = Ok log3 /\
      _parse_cloudwatch_log sample_json_loads sample_repr sample_lower []
        error_entry sample_additional_data
      = (l <- _parse_to_json sample_json_loads []
                (dict_update log3 sample_additional_data) ;;
         keep <- severity_filter l ;;
         Ok (keep, l))).
Proof.
  pose proof (extract_lambda_log_message_parts sample_json_loads sample_repr
                sample_lower) as (Hgen & Hex & Hpipe).
  split; [|split; [|split]].
  - destruct (Hgen python_entry (JStr python_line) eq_refl)
      as (log' & H & H345 & _ & H3 & _).
    exists log'. split; [exact H|].
    destruct (H345 (or_introl eq_refl)) as (A & B & C).
    repeat split; [exact A | exact B | exact C | exact (H3 eq_refl)].
  - destruct (Hgen accented_entry (JStr accented_line) eq_refl)
      as (log' & H & H345 & H45 & _).
    exists log'. split; [exact H|].
    destruct (H345 (or_intror (or_introl eq_refl))) as (_ & _ & C).
    split; [exact (H45 (or_introl eq_refl)) | exact C].
  - exact (Hex eq_refl info_entry eq_refl).
  - destruct (Hpipe [] sample_additional_data error_entry lambda_js_line
                (JStr "/aws/lambda/shipper-test")
                eq_refl eq_refl (or_intror eq_refl) eq_refl eq_refl)
      as (log1 & log2 & log3 & H1 & H2 & _ & H3 & Hp).
    exists log3. split; [|exact Hp].
    vm_compute in H1. injection H1 as <-.
    vm_compute in H2. injection H2 as <-.
    exact H3.
Defined.

(** C4, the claim as stated fails: an entry that carries both [@timestamp]
    and [timestamp] leaves [_add_timestamp] with its [timestamp] field
    still in place. *)
Lemma add_timestamp_keeps_raw_timestamp :
  exists log',
    _add_timestamp sample_repr both_timestamps = Ok log' /\
    dict_get "@timestamp" log' = Some (JStr "2024-01-01T00:00:00Z") /\
    dict_get "timestamp" log' = Some (JInt 1704067200000).
Proof.
  exists both_timestamps. repeat split.
Qed.

Lemma add_timestamp_infers_or_keeps_witness :
  (exists log',
      _add_timestamp sample_repr raw_entry = Ok log' /\
      dict_get "@timestamp" log' = Some (JStr "1704067200000") /\
      dict_get "timestamp" log' = None) /\
  _add_timestamp sample_repr both_timestamps = Ok both_timestamps.
Proof.
  split.
  - destruct (proj1 (add_timestamp_infers_or_keeps sample_repr)
                raw_entry (JInt 1704067200000) eq_refl eq_refl)
      as (log' & H & A & B & _).
    exists log'. repeat split; [exact H | exact A | exact B].
  - exact (proj2 (add_timestamp_infers_or_keeps sample_repr) both_timestamps eq_refl).
Defined.

Lemma housekeeping_line_dropped_witness :
  exists log2,
    _parse_cloudwatch_log sample_json_loads sample_repr sample_lower []
      start_entry sample_additional_data = Ok (false, log2) /\
    process_logs sample_json_loads dumps_plain sample_repr sample_lower []
      sample_additional_data [JObj start_entry] []
    = ([], Ok tt).
Proof.
  destruct (housekeeping_line_dropped sample_json_loads dumps_plain sample_repr sample_lower
              [] sample_additional_data start_entry
              "START RequestId: req-123 Version: $LATEST"
              (JStr "/aws/lambda/shipper-test")
              eq_refl eq_refl (or_intror eq_refl) eq_refl eq_refl)
    as (log1 & log2 & _ & _ & H & Hloop).
  exists log2. split; [exact H | exact (Hloop [] [])].
Defined.

Lemma ignored_severity_drop_or_abort_witness :
  (exists log',
      _parse_cloudwatch_log sample_json_loads sample_repr sample_lower []
        info_entry sample_additional_data = Ok (false, log')) /\
  (exists log',
      normalize severity_json_loads sample_repr sample_lower [("FORMAT", "json")]
        numeric_log_level_entry sample_additional_data = Ok (true, log') /\
      dict_get "level" log' = Some (JStr "INFO") /\
      dict_get "log_level" log' = Some (JInt 30) /\
      _parse_cloudwatch_log severity_json_loads sample_repr sample_lower
        [("FORMAT", "json")] numeric_log_level_entry sample_additional_data
      = Err AttributeError /\
      forall rest shipper,
        process_logs severity_json_loads dumps_plain sample_repr sample_lower
          [("FORMAT", "json")] sample_additional_data
          (JObj numeric_log_level_entry :: rest) shipper
        = (shipper, Err AttributeError)).
Proof.
  split.
  - eexists.
    refine (proj1 (proj1 (ignored_severity_drop_or_abort sample_json_loads
                            dumps_plain sample_repr sample_lower []
                            sample_additional_data info_entry _ _ _) _)).
    + vm_compute. reflexivity.
    + left. exists "info". split; reflexivity.
    + intros v Hv. vm_compute in Hv. injection Hv as <-. eexists. reflexivity.
  - eexists. split; [vm_compute; reflexivity|].
    split; [reflexivity|]. split; [reflexivity|].
    assert (Hbug := proj2 (ignored_severity_drop_or_abort severity_json_loads
                             dumps_plain sample_repr sample_lower
                             [("FORMAT", "json")] sample_additional_data
                             numeric_log_level_entry _ eq_refl
                             (or_intror (ex_intro _ "INFO" (conj eq_refl eq_refl))))
                     (JInt 30) eq_refl (fun s H => ltac:(discriminate H))).
    exact Hbug.
Defined.

Lemma missing_context_attribute_raises_witness :
  _get_additional_logs_data [] sample_payload bare_context = Err AttributeError /\
  lambda_handler sample_json_loads dumps_plain sample_b64decode sample_gunzip
    sample_repr sample_lower [] sample_event bare_context
  = ([], Err AttributeError).
Proof.
  refine (missing_context_attribute_raises sample_json_loads dumps_plain
            sample_b64decode sample_gunzip sample_repr sample_lower [] sample_event
            sample_payload bare_context _ eq_refl eq_refl (or_introl eq_refl)).
Defined.

(** C6, the claim as stated fails: with FORMAT set to "json", a message
    that parses to an object without any [level] is merged into the record,
    which gains the field [code]. *)
Lemma parse_to_json_merges_without_level :
  sample_json_loads code_message = Some code_object /\
  py_getitem code_object "level" = Err KeyError /\
  _parse_to_json sample_json_loads [("FORMAT", "json")] code_record
  = Ok [("message", JStr code_message); ("code", JInt 500)] /\
  _parse_to_json sample_json_loads [("FORMAT", "json")] code_record
  <> Ok code_record.
Proof.
  repeat split. vm_compute. discriminate.
Qed.

Lemma parse_to_json_noop_witness :
  _parse_to_json sample_json_loads [("FORMAT", "json")] text_record = Ok text_record /\
  _parse_to_json sample_json_loads [("FORMAT", "text")] code_record = Ok code_record /\
  _parse_to_json scalar_json_loads [("FORMAT", "text")] [("message", JStr "[1, 2]")]
  = Ok [("message", JStr "[1, 2]")] /\
  _parse_to_json scalar_json_loads [] number_record = Ok number_record /\
  _parse_to_json sample_json_loads [("FORMAT", "json")] code_record
  = Ok [("message", JStr code_message); ("code", JInt 500)].
Proof.
  split; [|split; [|split; [|split]]].
  - exact (proj1 (parse_to_json_noop sample_json_loads)
             [("FORMAT", "json")] text_record "plain text" eq_refl eq_refl).
  - exact (proj1 (proj2 (parse_to_json_noop sample_json_loads))
             [("FORMAT", "text")] code_record code_message code_object
             eq_refl eq_refl eq_refl (or_intror (or_introl eq_refl))).
  - exact (proj1 (proj2 (parse_to_json_noop scalar_json_loads))
             [("FORMAT", "text")] [("message", JStr "[1, 2]")] "[1, 2]"
             (JArr [JInt 1; JInt 2])
             eq_refl eq_refl eq_refl (or_intror (or_introl eq_refl))).
  - exact (proj1 (proj2 (parse_to_json_noop scalar_json_loads))
             [] number_record "5" (JInt 5)
             eq_refl eq_refl eq_refl (or_introl eq_refl)).
  - exact (proj1 (proj2 (proj2 (parse_to_json_noop sample_json_loads))
                    [("FORMAT", "json")] code_record code_message
                    [("code", JInt 500)] eq_refl eq_refl eq_refl)).
Defined.

Lemma parse_to_json_without_format_witness :
  sample_json_loads level_message = Some level_object /\
  _parse_to_json sample_json_loads [] level_record = Ok level_record.
Proof.
  split; [reflexivity|].
  exact (proj2 (parse_to_json_without_format sample_json_loads [] level_record eq_refl)
           level_message eq_refl).
Defined.

Lemma decode_failure_aborts_batch_witness :
  lambda_handler sample_json_loads dumps_plain sample_b64decode sample_gunzip
    sample_repr sample_lower [] corrupted_event sample_context
  = ([], Err ValueError).
Proof.
  destruct (decode_failure_aborts_batch sample_json_loads dumps_plain
              sample_b64decode sample_gunzip sample_repr sample_lower [] corrupted_event
              (JObj [("data", JStr "abc")]) sample_context "abc"
              eq_refl eq_refl (or_introl eq_refl))
    as (e & _ & H & He & _).
  rewrite (He eq_refl) in H. exact H.
Defined.


(** C9, the claim as stated fails: the primitive sub-field [x] of [data]
    holds 1, and the flattened record holds 2 under [x], the value of the
    record's own later field. *)
Lemma flatten_object_subfield_overwritten :
  exists out,
    flatten_object dumps_plain data_record = Ok out /\
    dict_get "data" data_record = Some (JObj data_fields) /\
    dict_get "x" data_fields = Some (JInt 1) /\
    is_simple_value (JInt 1) = true /\
    dict_get "x" out = Some (JInt 2).
Proof.
  eexists. repeat split.
Qed.

Lemma flatten_object_data_promotion_witness :
  exists out,
    flatten_object dumps_plain data_record = Ok out /\
    dict_get "data" out = Some (JStr (dumps_plain (JObj data_fields))) /\
    dict_get "logVerstion" out = Some (JStr "v3") /\
    dict_get "code" out = Some (JInt 500) /\
    dict_get "nested" out = None.
Proof.
  assert (Hnd : NoDup (keys ([] ++ ("data", JObj data_fields) :: [("x", JInt 2)])%list)).
  { repeat constructor; simpl; intuition discriminate. }
  assert (Hsub : NoDup (keys data_fields)).
  { repeat constructor; simpl; intuition discriminate. }
  destruct (flatten_object_data_promotion dumps_plain [] [("x", JInt 2)]
              data_fields Hnd Hsub)
    as (out & H & Hd & Hv & Hp & Hc).
  exists out. repeat split; [exact H | exact Hd | exact Hv | |].
  - apply (Hp "code" (JInt 500)); try reflexivity; try discriminate.
    simpl. intuition discriminate.
  - apply (Hc "nested" (JObj [("y", JInt 2)])); try reflexivity; try discriminate;
      simpl; intuition discriminate.
Defined.

(** * The further properties on the sample inputs *)

Ltac nodup_keys := repeat constructor; simpl; intuition discriminate.

Lemma flatten_object_output_flat_witness :
  exists out,
    flatten_object dumps_plain data_record = Ok out /\
    NoDup (keys out) /\ all_simple out.
Proof.
  pose proof (flatten_object_output_flat dumps_plain data_record _ eq_refl) as H.
  eexists. split; [reflexivity|]. exact (conj (proj1 H) (proj1 (proj2 H))).
Defined.

Lemma flatten_object_without_promotion_witness :
  flatten_object dumps_plain nested_record
  = Ok [("message", JStr "hello");
        ("tags", JStr (dumps_plain (JArr [JStr "a"; JStr "b"])));
        ("ctx", JStr (dumps_plain (JObj [("y", JInt 2)])));
        ("logVerstion", JStr "v3")].
Proof.
  refine (flatten_object_without_promotion dumps_plain nested_record _ _).
  - nodup_keys.
  - intros v Hv. discriminate Hv.
Defined.

Lemma flatten_object_primitive_identity_witness :
  flatten_object dumps_plain flat_record
  = Ok (flat_record ++ [("logVerstion", JStr "v3")])%list.
Proof.
  refine (flatten_object_primitive_identity dumps_plain flat_record _ _).
  - nodup_keys.
  - repeat constructor.
Defined.

Lemma flatten_object_failure_witness :
  flatten_object dumps_plain list_data_record = Err AttributeError.
Proof.
  refine (proj2 (flatten_object_failure dumps_plain list_data_record)
            (JArr [JInt 1]) _ eq_refl _).
  - right. now left.
  - intros d H. discriminate H.
Defined.

Lemma parse_to_json_structured_merge_witness :
  _parse_to_json sample_json_loads [("FORMAT", "JSON")] code_record
  = Ok [("message", JStr code_message); ("code", JInt 500)].
Proof.
  refine (proj1 (parse_to_json_structured_merge sample_json_loads
                   [("FORMAT", "JSON")] code_record code_message
                   [("code", JInt 500)] eq_refl eq_refl eq_refl _)).
  nodup_keys.
Defined.

Lemma parse_to_json_extracts_level_witness :
  _parse_to_json sample_json_loads [("FORMAT", "text")] level_record
  = Ok [("message", JStr level_message); ("log_level", JStr "ERROR")].
Proof.
  exact (proj1 (parse_to_json_extracts_level sample_json_loads
                  [("FORMAT", "text")] level_record level_message "text" "ERROR"
                  [("level", JStr "ERROR")]
                  eq_refl eq_refl eq_refl eq_refl eq_refl eq_refl)).
Defined.

Lemma parse_to_json_level_only_witness :
  dict_get "message"
    [("message", JStr level_message); ("log_level", JStr "ERROR")]
  = dict_get "message" level_record.
Proof.
  exact (proj2 (parse_to_json_level_only sample_json_loads [("FORMAT", "text")]
                  level_record
                  [("message", JStr level_message); ("log_level", JStr "ERROR")]
                  eq_refl eq_refl)
           "message" (fun H => ltac:(discriminate H))).
Defined.

Lemma parse_to_json_uncaught_witness :
  _parse_to_json scalar_json_loads [] numeric_message_record = Err TypeError /\
  _parse_to_json scalar_json_loads [("FORMAT", "json")] number_record
  = Err AttributeError /\
  _parse_to_json scalar_json_loads [("FORMAT", "text")] number_record
  = Err TypeError /\
  _parse_to_json scalar_json_loads [("FORMAT", "text")] level_number_record
  = Err AttributeError.
Proof.
  split; [|split; [|split]].
  - refine (proj1 (parse_to_json_uncaught scalar_json_loads [] numeric_message_record)
              (JInt 5) eq_refl _).
    intros s H. discriminate H.
  - refine (proj1 (proj2 (parse_to_json_uncaught scalar_json_loads
                            [("FORMAT", "json")] number_record))
              "5" (JInt 5) eq_refl eq_refl eq_refl _).
    intros d H. discriminate H.
  - refine (proj1 (proj2 (proj2 (parse_to_json_uncaught scalar_json_loads
                                   [("FORMAT", "text")] number_record)))
              "5" (JInt 5) "text" eq_refl eq_refl eq_refl eq_refl _ _ _);
      intros x H; discriminate H.
  - refine (proj2 (proj2 (proj2 (parse_to_json_uncaught scalar_json_loads
                                   [("FORMAT", "text")] level_number_record)))
              level_number_message [("level", JInt 3)] "text" (JInt 3)
              eq_refl eq_refl eq_refl eq_refl eq_refl _).
    intros s H. discriminate H.
Defined.

Lemma severity_filter_keeps_witness :
  severity_filter [("message", JStr "disk full"); ("log_level", JStr "error")]
  = Ok true /\
  exists log',
    _parse_cloudwatch_log sample_json_loads sample_repr sample_lower []
      error_entry sample_additional_data = Ok (true, log') /\
    passes_severity "log_level" log' /\ passes_severity "level" log'.
Proof.
  split.
  - apply (proj1 (severity_filter_keeps sample_json_loads sample_repr sample_lower)).
    split.
    + right. exists "error". split; reflexivity.
    + left. reflexivity.
  - eexists. split; [vm_compute; reflexivity|].
    refine (proj2 (severity_filter_keeps sample_json_loads sample_repr sample_lower)
              [] error_entry sample_additional_data _ _).
    vm_compute. reflexivity.
Defined.

Lemma kept_record_carries_metadata_witness :
  exists log',
    _parse_cloudwatch_log sample_json_loads sample_repr sample_lower []
      error_entry sample_additional_data = Ok (true, log') /\
    dict_get "logGroup" log' = Some (JStr "/aws/lambda/shipper-test").
Proof.
  eexists. split; [vm_compute; reflexivity|].
  refine (kept_record_carries_metadata sample_json_loads sample_repr sample_lower []
            error_entry sample_additional_data _ _ eq_refl _
            "logGroup" (JStr "/aws/lambda/shipper-test") eq_refl _).
  - nodup_keys.
  - vm_compute. reflexivity.
  - intros H. discriminate H.
Defined.

Lemma add_level_timeout_witness :
  _add_level [("level", JStr "debug"); ("message", JStr "Task timed out after 3 s")]
  = Ok [("level", JStr "debug"); ("message", JStr "Task timed out after 3 s")] /\
  exists log',
    _add_level timeout_entry = Ok log' /\
    dict_get "level" log' = Some (JStr "error").
Proof.
  split.
  - exact (proj1 (add_level_timeout
                    [("level", JStr "debug");
                     ("message", JStr "Task timed out after 3 s")]) eq_refl).
  - destruct (proj2 (add_level_timeout timeout_entry)
                "2024-01-01T00:00:03Z req-789 Task timed out after 3.00 seconds"
                eq_refl eq_refl) as (log' & H & Hl & _).
    exists log'. split; [exact H | exact Hl].
Defined.

Lemma entry_without_required_fields_witness :
  _parse_cloudwatch_log sample_json_loads sample_repr sample_lower []
    no_timestamp_entry sample_additional_data = Err KeyError.
Proof.
  exact (proj1 (entry_without_required_fields sample_json_loads dumps_plain
                  sample_repr sample_lower [] no_timestamp_entry sample_additional_data
                  (or_introl (conj eq_refl eq_refl)))).
Defined.

Lemma extract_lambda_log_message_frame_witness :
  _extract_lambda_log_message sample_repr sample_lower [("id", JStr "1")] = Err KeyError /\
  exists log',
    _extract_lambda_log_message sample_repr sample_lower info_entry = Ok log' /\
    dict_get "id" log' = Some (JStr "3").
Proof.
  split.
  - exact (proj1 (extract_lambda_log_message_frame sample_repr sample_lower [("id", JStr "1")])
             eq_refl).
  - eexists. split; [vm_compute; reflexivity|].
    refine (proj2 (extract_lambda_log_message_frame sample_repr sample_lower info_entry)
              _ _ "id" _ _ _ _);
      [vm_compute; reflexivity | | | |]; intros H; discriminate H.
Defined.

Lemma split_on_round_trip_witness :
  split_on TAB (String.concat (String TAB EmptyString)
                  ["2024-01-01T00:00:02Z"; "req-456"; "plain text"])
  = ["2024-01-01T00:00:02Z"; "req-456"; "plain text"].
Proof.
  refine (proj2 (split_on_round_trip TAB) _ _ _).
  - discriminate.
  - repeat constructor.
Defined.

Lemma payload_without_metadata_raises_witness :
  lambda_handler batch_json_loads dumps_plain batch_b64decode batch_gunzip
    sample_repr sample_lower [] (batch_event "ownerless") sample_context
  = ([], Err KeyError).
Proof.
  refine (proj2 (proj2 (payload_without_metadata_raises batch_json_loads
                          dumps_plain batch_b64decode batch_gunzip sample_repr sample_lower
                          [] (batch_event "ownerless")
                          (JObj ownerless_payload_fields) sample_context _)
                   ownerless_payload_fields "owner" eq_refl _ eq_refl)).
  - vm_compute. reflexivity.
  - simpl. auto.
Defined.

Lemma additional_data_type_tag_witness :
  exists additional_data,
    _get_additional_logs_data [("ENRICH", "type=mine"); ("TYPE", "custom")]
      sample_payload sample_context = Ok additional_data /\
    dict_get "type" additional_data = Some (JStr "custom").
Proof.
  eexists. split; [vm_compute; reflexivity|].
  refine (additional_data_type_tag [("ENRICH", "type=mine"); ("TYPE", "custom")]
            sample_payload sample_context _ _).
  vm_compute. reflexivity.
Defined.

Lemma additional_data_without_enrich_witness :
  _get_additional_logs_data [] (JObj empty_payload_fields) sample_context
  = Ok sample_additional_data.
Proof.
  exact (additional_data_without_enrich [] empty_payload_fields
           (JStr "/aws/lambda/shipper-test")
           (JStr "2024/01/01/[$LATEST]abcdef")
           (JStr "DATA_MESSAGE") (JStr "123456789012") (JStr "$LATEST")
           (JStr "arn:aws:lambda:us-east-1:123456789012:function:shipper")
           eq_refl eq_refl eq_refl eq_refl (or_introl eq_refl)).
Defined.

Lemma enrich_malformed_raises_witness :
  _get_additional_logs_data [("ENRICH", "env=prod;")] sample_payload sample_context
  = Err IndexError.
Proof.
  refine (enrich_malformed_raises [("ENRICH", "env=prod;")] sample_payload
            sample_context _ _ _ "env=prod;" eq_refl eq_refl eq_refl eq_refl _).
  right. exists "env=prod". reflexivity.
Defined.

Lemma enrich_pairs_added_witness :
  exists additional_data,
    _get_additional_logs_data [("ENRICH", "env=prod;team=core")]
      sample_payload sample_context = Ok additional_data /\
    dict_get "env" additional_data = Some (JStr "prod") /\
    dict_get "team" additional_data = Some (JStr "core").
Proof.
  destruct (enrich_pairs_added [("ENRICH", "env=prod;team=core")]
              sample_payload sample_context _ _ _ enrich_pairs
              eq_refl eq_refl eq_refl) as (ad & H & _ & Hk).
  - discriminate.
  - repeat constructor.
  - reflexivity.
  - exists ad. split; [exact H|]. split.
    + apply Hk; [nodup_keys | now left | discriminate].
    + apply Hk; [nodup_keys | right; now left | discriminate].
Defined.

Lemma failed_batch_partial_send_witness :
  exists shipper,
    lambda_handler batch_json_loads dumps_plain batch_b64decode batch_gunzip
      sample_repr sample_lower [] (batch_event "mixed") sample_context
    = (shipper, Err TypeError) /\
    length shipper = 1 /\ ~ In Flush shipper.
Proof.
  eexists. split; [vm_compute; reflexivity|]. split; [reflexivity|].
  refine (proj1 (failed_batch_partial_send batch_json_loads dumps_plain
                   batch_b64decode batch_gunzip sample_repr sample_lower []
                   (batch_event "mixed") sample_context _ TypeError _)).
  vm_compute. reflexivity.
Defined.

Lemma non_mapping_entry_aborts_witness :
  exists shipper,
    process_logs sample_json_loads dumps_plain sample_repr sample_lower []
      sample_additional_data [JObj error_entry; JInt 7; JObj python_entry] []
    = (shipper, Err TypeError) /\
    length shipper = 1.
Proof.
  eexists. split.
  - refine (proj1 (non_mapping_entry_aborts sample_json_loads dumps_plain
                     sample_repr sample_lower [] sample_additional_data [JObj error_entry]
                     [JObj python_entry] (JInt 7) [] _ _ _)).
    + intros log H. discriminate H.
    + vm_compute. reflexivity.
  - reflexivity.
Defined.

Lemma extract_aws_logs_data_outcomes_witness :
  _extract_aws_logs_data sample_json_loads sample_b64decode sample_gunzip
    sample_event = Ok sample_payload /\
  _extract_aws_logs_data sample_json_loads sample_b64decode sample_gunzip
    (JObj [("records", JArr [])]) = Err KeyError.
Proof.
  pose proof (extract_aws_logs_data_outcomes sample_json_loads sample_b64decode
                sample_gunzip) as H.
  split.
  - exact (proj1 (H sample_event) (JObj [("data", JStr sample_data)])
             sample_data sample_gzip sample_payload_text sample_payload
             eq_refl eq_refl eq_refl eq_refl eq_refl).
  - exact (proj1 (proj2 (H (JObj [("records", JArr [])])))
             [("records", JArr [])] eq_refl eq_refl).
Defined.

Lemma other_log_group_message_untouched_witness :
  exists log',
    _parse_cloudwatch_log sample_json_loads sample_repr sample_lower []
      python_entry ecs_additional_data = Ok (true, log') /\
    dict_get "message" log' = Some (JStr python_line) /\
    dict_get "requestID" log' = None.
Proof.
  eexists. split; [vm_compute; reflexivity|].
  refine (other_log_group_message_untouched sample_json_loads sample_repr sample_lower []
            python_entry ecs_additional_data python_line (JStr "/ecs/app")
            true _ eq_refl (or_intror eq_refl) eq_refl eq_refl _ eq_refl
            eq_refl _).
  - nodup_keys.
  - vm_compute. reflexivity.
Defined.

Lemma log_events_shapes_witness :
  lambda_handler batch_json_loads dumps_plain batch_b64decode batch_gunzip
    sample_repr sample_lower [] (batch_event "empty") sample_context
  = ([Flush], Ok tt).
Proof.
  refine (proj1 (proj2 (proj2 (log_events_shapes batch_json_loads dumps_plain
                                 batch_b64decode batch_gunzip sample_repr sample_lower []
                                 (batch_event "empty") sample_context
                                 empty_payload_fields _ _ _)))
            (or_introl eq_refl)).
  - vm_compute. reflexivity.
  - vm_compute. reflexivity.
Defined.
